(** * pytech: position accounting and the backtest event loop

    A shallow embedding of
    - [pytech/fin/asset/owned_asset.py]  (class [OwnedAsset]),
    - [pytech/backtest/backtest.py]      (class [Backtest]),
    - [tests/test_portfolio.py]          (the liquidity test),
    and the properties the design document states about them.

    Conventions.
    - Python objects are mutated in place and exceptions leave the
      mutations made so far: a method is a function from the object's
      state to the new state and either a return value or an exception
      (the [St] monad below).
    - Share counts are Python values that may or may not be
      [numbers.Integral] ([pynum]); prices are exact rationals [Q]
      compared with [==].  The concrete runs below use small integers and
      halves, on which binary floating point is exact as well.
    - Logging is not modelled. *)

From Stdlib Require Import ZArith QArith Lqa List String Bool Lia.
Import ListNotations.

Local Open Scope Z_scope.

(** ** Python values, exceptions and effects *)
Module Py.

Inductive exn_class : Set :=
| TypeError | ZeroDivisionError | StopIteration | QueueEmpty
| InvalidPositionError | Exception.

(** An exception instance: its class and its message. *)
Record exn : Set := Exn { exn_cls : exn_class; exn_msg : string }.

Definition exn_class_eqb (a b : exn_class) : bool :=
  match a, b with
  | TypeError, TypeError | ZeroDivisionError, ZeroDivisionError
  | StopIteration, StopIteration | QueueEmpty, QueueEmpty
  | InvalidPositionError, InvalidPositionError | Exception, Exception => true
  | _, _ => false
  end.

(** [except cls:] catches [e] (no class of the model derives from another). *)
Definition caught_by (cls : exn_class) (e : exn) : bool :=
  exn_class_eqb (exn_cls e) cls.

(** The result of evaluating an expression: a value or a raised exception. *)
Inductive result (A : Type) : Type :=
| Ok (a : A)
| Raise (e : exn).
Arguments Ok {A} a.
Arguments Raise {A} e.

Definition raises {A} (cls : exn_class) (r : result A) : Prop :=
  exists msg, r = Raise (Exn cls msg).

Definition rbind {A B} (r : result A) (k : A -> result B) : result B :=
  match r with Ok a => k a | Raise e => Raise e end.

(** A method on an object of state [S]. *)
Definition St (S A : Type) : Type := S -> S * result A.

Definition ret {S A} (a : A) : St S A := fun s => (s, Ok a).
Definition raise {S A} (e : exn) : St S A := fun s => (s, Raise e).
Definition bind {S A B} (m : St S A) (k : A -> St S B) : St S B :=
  fun s => match m s with
           | (s', Ok a) => k a s'
           | (s', Raise e) => (s', Raise e)
           end.
Definition gets {S A} (f : S -> A) : St S A := fun s => (s, Ok (f s)).
Definition modify {S} (f : S -> S) : St S unit := fun s => (f s, Ok tt).
Definition eval {S A} (r : result A) : St S A := fun s => (s, r).

(** [try: body / except cls: handler / else: orelse]. *)
Definition try_except_else {S A B} (body : St S A) (cls : exn_class)
    (handler : St S B) (orelse : A -> St S B) : St S B :=
  fun s => match body s with
           | (s', Ok a) => orelse a s'
           | (s', Raise e) => if caught_by cls e then handler s' else (s', Raise e)
           end.

(** A number as a share count can be given: an [int], which is a
    [numbers.Integral], or a [float], which is not (whatever its value). *)
Inductive pynum : Type :=
| PyInt (z : Z)
| PyFloat (q : Q).

(** [a + b]: [int + int] is an [int], anything with a [float] is a [float]. *)
Definition py_add (a b : pynum) : pynum :=
  match a, b with
  | PyInt x, PyInt y => PyInt (x + y)
  | PyInt x, PyFloat y => PyFloat (inject_Z x + y)
  | PyFloat x, PyInt y => PyFloat (x + inject_Z y)
  | PyFloat x, PyFloat y => PyFloat (x + y)
  end.

(** [x / y]: true division, which raises on a zero divisor. *)
Definition py_truediv (x y : Q) : result Q :=
  if Qeq_bool y 0 then Raise (Exn ZeroDivisionError "division by zero")
  else Ok (x / y)%Q.

End Py.

Import Py.

Declare Scope py_scope.
Delimit Scope py_scope with py.
Notation "x <- c ;; k" := (bind c (fun x => k))
  (at level 61, c at next level, right associativity) : py_scope.
Notation "c ;; k" := (bind c (fun _ => k))
  (at level 61, right associativity) : py_scope.
Notation "'let?' x := r 'in' k" := (rbind r (fun x => k))
  (at level 61, x name, r at next level, right associativity) : py_scope.
Local Open Scope py_scope.

(** ** [pytech.utils.enums] *)
Module enums.

(** The module is not among the sources; these are the members the sources
    name. *)
Inductive Position : Set := LONG | SHORT.

(** The members the dispatcher tests for; [OTHER] is any other tag. *)
Inductive EventType : Set :=
| MARKET | SIGNAL | TRADE | FILL
| OTHER (name : string).

(** [a is b] on event types. *)
Definition EventType_is (a b : EventType) : bool :=
  match a, b with
  | MARKET, MARKET | SIGNAL, SIGNAL | TRADE, TRADE | FILL, FILL => true
  | OTHER x, OTHER y => String.eqb x y
  | _, _ => false
  end.

End enums.

Import enums.

(** ** [pytech.fin.asset.owned_asset] *)
Module owned_asset.

Local Open Scope Q_scope.

(** [pytech.utils] and [pandas] are not among the sources: what
    [OwnedAsset] uses of them is kept abstract.  [DateArg] is what
    [utils.parse_date] accepts, [Timestamp] what it returns, [now] the
    reading of [datetime.now(tz=pytz.UTC)] at construction and [time_of] the
    [.time()] of a timestamp.  [PositionArg] is what a caller can pass as a
    position side; [check_if_valid] is [Position.check_if_valid], which
    returns the member it stands for or raises. *)
Class Utils : Type := {
  DateArg : Type;
  Timestamp : Type;
  TimeOfDay : Type;
  parse_date : DateArg -> result Timestamp;
  now : Timestamp;
  time_of : Timestamp -> TimeOfDay;
  PositionArg : Type;
  check_if_valid : PositionArg -> result Position
}.

Section OwnedAsset.

Context {utils : Utils}.

(** [latest_price_time] holds a time of day after construction and a full
    timestamp after [update_total_position_value]. *)
Inductive PriceTime : Type :=
| AsTime (t : TimeOfDay)
| AsTimestamp (ts : Timestamp).

(** The attributes of an instance.  [_ticker] is a plain symbol: the
    [Asset] class the property also accepts is not among the sources. *)
Record OwnedAsset : Type := mkOwnedAsset {
  _ticker : string;
  position : Position;
  purchase_date : Timestamp;
  average_share_price_paid : Q;
  latest_price : Q;
  latest_price_time : PriceTime;
  total_position_value : Q;
  total_position_cost : Q;
  _shares_owned : Z
}.

(** What [pytech.trading.trade.Trade] is read for in [from_trade]. *)
Record Trade : Type := mkTrade {
  trade_ticker : string;
  qty : pynum;
  avg_price_per_share : Q;
  trade_date : DateArg
}.

(** Attribute assignments. *)
Definition set_average_share_price_paid (v : Q) (self : OwnedAsset) : OwnedAsset :=
  mkOwnedAsset (_ticker self) (position self) (purchase_date self) v
    (latest_price self) (latest_price_time self) (total_position_value self)
    (total_position_cost self) (_shares_owned self).

Definition set_latest_price (v : Q) (self : OwnedAsset) : OwnedAsset :=
  mkOwnedAsset (_ticker self) (position self) (purchase_date self)
    (average_share_price_paid self) v (latest_price_time self)
    (total_position_value self) (total_position_cost self) (_shares_owned self).

Definition set_latest_price_time (v : PriceTime) (self : OwnedAsset) : OwnedAsset :=
  mkOwnedAsset (_ticker self) (position self) (purchase_date self)
    (average_share_price_paid self) (latest_price self) v
    (total_position_value self) (total_position_cost self) (_shares_owned self).

Definition set_total_position_value (v : Q) (self : OwnedAsset) : OwnedAsset :=
  mkOwnedAsset (_ticker self) (position self) (purchase_date self)
    (average_share_price_paid self) (latest_price self) (latest_price_time self)
    v (total_position_cost self) (_shares_owned self).

Definition set_total_position_cost (v : Q) (self : OwnedAsset) : OwnedAsset :=
  mkOwnedAsset (_ticker self) (position self) (purchase_date self)
    (average_share_price_paid self) (latest_price self) (latest_price_time self)
    (total_position_value self) v (_shares_owned self).

Definition set__shares_owned (v : Z) (self : OwnedAsset) : OwnedAsset :=
  mkOwnedAsset (_ticker self) (position self) (purchase_date self)
    (average_share_price_paid self) (latest_price self) (latest_price_time self)
    (total_position_value self) (total_position_cost self) v.

Definition Method (A : Type) : Type := St OwnedAsset A.

(** [@property shares_owned] *)
Definition shares_owned (self : OwnedAsset) : Z := _shares_owned self.

(** [@shares_owned.setter] *)
Definition shares_owned_setter (shares_owned : pynum) : Method unit :=
  match shares_owned with
  | PyInt z => modify (set__shares_owned z)
  | PyFloat _ => raise (Exn TypeError "shares_owned MUST be an integer.")
  end.

(** [@property ticker] *)
Definition ticker (self : OwnedAsset) : string := _ticker self.


(** [_set_position_cost_and_value(price)] *)
Definition _set_position_cost_and_value (price : Q) : Method unit :=
  pos <- gets position ;;
  match pos with
  | LONG =>
      n <- gets shares_owned ;; c <- gets total_position_cost ;;
      modify (set_total_position_cost (c + (price * inject_Z n) * -1)) ;;
      n <- gets shares_owned ;; v <- gets total_position_value ;;
      modify (set_total_position_value (v + price * inject_Z n))
  | SHORT =>
      n <- gets shares_owned ;; c <- gets total_position_cost ;;
      modify (set_total_position_cost (c + price * inject_Z n)) ;;
      n <- gets shares_owned ;; v <- gets total_position_value ;;
      modify (set_total_position_value (v + (price * inject_Z n) * -1))
  end.

(** [__init__(ticker, shares_owned, position, avg_share_price, purchase_date=None)].
    An exception abandons the object under construction.  [_shares_owned]
    does not exist before the setter runs; the record holds 0 until then and
    nothing reads it. *)
Definition __init__ (ticker : string) (shares_owned : pynum)
    (position : PositionArg) (avg_share_price : Q)
    (purchase_date : option DateArg) : result OwnedAsset :=
  let? pos := check_if_valid position in
  let? pd := match purchase_date with
             | None => Ok now
             | Some d => parse_date d
             end in
  let self := mkOwnedAsset ticker pos pd avg_share_price avg_share_price
                (AsTime (time_of pd)) 0 0 0%Z in
  match (shares_owned_setter shares_owned ;;
         _set_position_cost_and_value avg_share_price) self with
  | (self', Ok _) => Ok self'
  | (_, Raise e) => Raise e
  end.

(** Values a keyword argument of [__init__] can carry. *)
Inductive ArgValue : Type :=
| VTicker (s : string)
| VShares (n : pynum)
| VPosition (p : PositionArg)
| VPrice (q : Q)
| VDate (d : DateArg).

Definition __init__params : list string :=
  ["ticker"; "shares_owned"; "position"; "avg_share_price"; "purchase_date"]%string.

Fixpoint kwarg (name : string) (kwargs : list (string * ArgValue)) : option ArgValue :=
  match kwargs with
  | [] => None
  | (k, v) :: rest => if String.eqb k name then Some v else kwarg name rest
  end.

Definition unexpected_keyword (kwargs : list (string * ArgValue)) : option string :=
  match filter (fun kv => negb (existsb (String.eqb (fst kv)) __init__params)) kwargs with
  | [] => None
  | (k, _) :: _ => Some k
  end.

(** The call of [cls] on an unpacked dictionary: it binds the keywords to
    the parameters of [__init__] by name.  A keyword that names no
    parameter, or a required parameter left without a value, is a
    [TypeError] raised before the body runs; [purchase_date] left out takes
    its default.  (A value of the wrong kind for its parameter is outside
    the model and is refused the same way.) *)
Definition call_kwargs (kwargs : list (string * ArgValue)) : result OwnedAsset :=
  match unexpected_keyword kwargs with
  | Some k =>
      Raise (Exn TypeError ("__init__() got an unexpected keyword argument " ++ k))
  | None =>
      match kwarg "ticker" kwargs, kwarg "shares_owned" kwargs,
            kwarg "position" kwargs, kwarg "avg_share_price" kwargs,
            kwarg "purchase_date" kwargs with
      | Some (VTicker t), Some (VShares n), Some (VPosition p), Some (VPrice a),
        Some (VDate d) => __init__ t n p a (Some d)
      | Some (VTicker t), Some (VShares n), Some (VPosition p), Some (VPrice a),
        None => __init__ t n p a None
      | _, _, _, _, _ =>
          Raise (Exn TypeError "__init__() missing required positional arguments")
      end
  end.

(** [from_trade(cls, trade, asset_position)] *)
Definition from_trade (trade : Trade) (asset_position : PositionArg)
  : result OwnedAsset :=
  let owned_asset_dict :=
    [ ("ticker", VTicker (trade_ticker trade));
      ("position", VPosition asset_position);
      ("shares_owned", VShares (qty trade));
      ("average_share_price", VPrice (avg_price_per_share trade));
      ("purchase_date", VDate (trade_date trade)) ]%string in
  call_kwargs owned_asset_dict.

(** What [make_trade] hands back: [self] or [None]. *)
Inductive TradeReturn : Set := ReturnsSelf | ReturnsNone.

(** [make_trade(qty, price_per_share)] *)
Definition make_trade (qty : pynum) (price_per_share : Q) : Method TradeReturn :=
  n <- gets shares_owned ;;
  shares_owned_setter (py_add (PyInt n) qty) ;;
  _set_position_cost_and_value price_per_share ;;
  try_except_else
    (v <- gets total_position_value ;; n <- gets shares_owned ;;
     avg <- eval (py_truediv v (inject_Z n)) ;;
     modify (set_average_share_price_paid avg))
    ZeroDivisionError
    (ret ReturnsNone)
    (fun _ => ret ReturnsSelf).

(** [update_total_position_value(latest_price, price_date)] *)
Definition update_total_position_value (latest_price : Q) (price_date : DateArg)
  : Method unit :=
  modify (set_latest_price latest_price) ;;
  ts <- eval (parse_date price_date) ;;
  modify (set_latest_price_time (AsTimestamp ts)) ;;
  pos <- gets position ;;
  p <- gets OwnedAsset.latest_price ;; n <- gets shares_owned ;;
  match pos with
  | SHORT => modify (set_total_position_value ((p * inject_Z n) * -1))
  | LONG => modify (set_total_position_value (p * inject_Z n))
  end.

(** The call [self.update_total_position_value(...)] with the positional
    arguments [args]: the method takes exactly [latest_price] and
    [price_date] after [self]. *)
Inductive Arg : Type :=
| APrice (q : Q)
| ADate (d : DateArg).

Definition call_update_total_position_value (args : list Arg) : Method unit :=
  match args with
  | [APrice latest_price; ADate price_date] =>
      update_total_position_value latest_price price_date
  | _ =>
      raise (Exn TypeError
        "update_total_position_value() takes 2 positional arguments: 'latest_price' and 'price_date'")
  end.

(** [return_on_investment()] *)
Definition return_on_investment : Method Q :=
  call_update_total_position_value [] ;;
  v <- gets total_position_value ;; c <- gets total_position_cost ;;
  eval (py_truediv (v + c) (c * -1)).

(** Fills applied one after the other with [make_trade]: a fill is a signed
    quantity and a price per share. *)
Fixpoint make_trades (fills : list (Z * Q)) : Method unit :=
  match fills with
  | [] => ret tt
  | (q, p) :: rest => make_trade (PyInt q) p ;; make_trades rest
  end.

(** *** What the design document asks of the accounting *)

(** The shares a sequence of fills adds up to. *)
Definition total_quantity (fills : list (Z * Q)) : Z :=
  fold_right (fun f acc => (fst f + acc)%Z) 0%Z fills.

(** The cash a sequence of fills pays out: price times quantity, summed. *)
Definition cumulative_outflow (fills : list (Z * Q)) : Q :=
  fold_right (fun f acc => snd f * inject_Z (fst f) + acc) 0 fills.

(** The quantity-weighted average price of a sequence of fills. *)
Definition weighted_average (fills : list (Z * Q)) : Q :=
  cumulative_outflow fills / inject_Z (total_quantity fills).

(** [x] for a long position, [-x] for a short one. *)
Definition signed (pos : Position) (x : Q) : Q :=
  match pos with LONG => x | SHORT => - x end.

(** *** Intermediate states, for the statements below *)

(** The object after [_set_position_cost_and_value price]. *)
Definition booked (price : Q) (self : OwnedAsset) : OwnedAsset :=
  let n := inject_Z (shares_owned self) in
  match position self with
  | LONG =>
      set_total_position_value (total_position_value self + price * n)
        (set_total_position_cost (total_position_cost self + (price * n) * -1) self)
  | SHORT =>
      set_total_position_value (total_position_value self + (price * n) * -1)
        (set_total_position_cost (total_position_cost self + price * n) self)
  end.

(** The object after the first two statements of [make_trade] on an integral
    quantity. *)
Definition traded (delta : Z) (price : Q) (self : OwnedAsset) : OwnedAsset :=
  booked price (set__shares_owned (shares_owned self + delta) self).

(** The purchase date is absent or one [parse_date] accepts. *)
Definition date_parses (purchase_date : option DateArg) : Prop :=
  match purchase_date with
  | None => True
  | Some d => exists ts, parse_date d = Ok ts
  end.

End OwnedAsset.

(** *** Utilities and a position for worked examples

    Dates are day numbers, the time of a timestamp is the number itself, and
    the clock reads day 0; a position side is passed by name. *)

Definition parse_day (d : Z) : result Z :=
  if (d <? 0)%Z then Raise (Exn Exception "not a date") else Ok d.

Definition side_of_name (name : string) : result Position :=
  if String.eqb name "LONG" then Ok LONG
  else if String.eqb name "SHORT" then Ok SHORT
  else Raise (Exn InvalidPositionError name).

#[export] Instance by_day_and_name : Utils :=
  {| DateArg := Z; Timestamp := Z; TimeOfDay := Z;
     parse_date := parse_day; now := 0%Z; time_of := fun ts => ts;
     PositionArg := string; check_if_valid := side_of_name |}.

(** Ten shares bought at 10: value 100, cost -100. *)
Definition long_10_at_10 : OwnedAsset :=
  mkOwnedAsset "X" LONG 0%Z 10 10 (AsTime 0%Z) (100 # 1) (-100 # 1) 10%Z.

(** Ten shares sold short at 10: value -100, cost 100. *)
Definition short_10_at_10 : OwnedAsset :=
  mkOwnedAsset "X" SHORT 0%Z 10 10 (AsTime 0%Z) (-100 # 1) (100 # 1) 10%Z.

(** Ten more at 20, then five back at 30. *)
Definition two_fills : list (Z * Q) := [(10%Z, 20); ((-5)%Z, 30)].

Section Conventions.

Context {utils : Utils}.

(** The signs the docstring of [_set_position_cost_and_value] asks for: a
    long position has a value that is not negative and a cost that is not
    positive; "for a short position [total_position_cost] should be
    positive [...] and a negative [total_position_value]". *)
Definition sign_convention (self : OwnedAsset) : Prop :=
  match position self with
  | LONG => 0 <= total_position_value self /\ total_position_cost self <= 0
  | SHORT => total_position_value self <= 0 /\ 0 <= total_position_cost self
  end.

End Conventions.

End owned_asset.

(** ** [pytech.fin.portfolio]: the liquidity check *)
Module portfolio.

Local Open Scope Q_scope.

(** Modelled from the spec: class [Portfolio] ([pytech/fin/portfolio.py] is
    not among the sources; [tests/test_portfolio.py] calls it).  Only the
    free cash matters to the liquidity check. *)
Record Portfolio : Type := mkPortfolio { cash : Q }.

(** [Portfolio(starting_cash=c)] *)
Definition new_Portfolio (starting_cash : Q) : Portfolio :=
  mkPortfolio starting_cash.

(** Modelled from the spec: [Portfolio.check_liquidity(price, qty)].  The
    cost of the trade is [price * qty]; "for negative quantity [...] liquidity
    always holds"; otherwise the check is "false iff
    [price * qty > cash_available]". *)
Definition check_liquidity (self : Portfolio) (price : Q) (qty : Z) : bool :=
  if (qty <? 0)%Z then true
  else
    let cost := price * inject_Z qty in
    Qle_bool cost (cash self).

(** [TestPortfolio.test_check_liquidity]: the three assertions, in order. *)
Definition test_check_liquidity : list bool :=
  let test_portfolio := new_Portfolio 100 in
  [ Bool.eqb (check_liquidity test_portfolio 100 2) false;
    Bool.eqb (check_liquidity test_portfolio 100 (-2)) true;
    Bool.eqb (check_liquidity test_portfolio 1 2) true ].

End portfolio.

(** ** [pytech.backtest.backtest] *)
Module backtest.

(** The events and the collaborators are not among the sources.  [Event] is
    whatever the queue carries, read only through [event_type].  [World] is
    the joint state of the data handler, the strategy, the portfolio, the
    blotter and the execution handler; each of their methods changes it and
    either returns the items it has put on the event queue, in order, or
    raises, in which case it has put none.  An item is an event or [None]. *)
Class Collaborators (Event World : Type) : Type := {
  event_type : Event -> EventType;
  update_bars : St World (list (option Event));
  generate_signals : Event -> St World (list (option Event));
  update_timeindex : Event -> St World (list (option Event));
  update_signal : Event -> St World (list (option Event));
  execute_order : Event -> St World (list (option Event));
  update_fill : Event -> St World (list (option Event))
}.

Section Backtest.

Context {Event World : Type} {collaborators : Collaborators Event World}.

(** An item of the queue. *)
Definition Item : Type := option Event.

(** What an observer of the queue and of the dispatcher sees. *)
Inductive Obs : Type :=
| Put (item : Item)
| Got (item : Item)
| Dispatched (event : Event).

(** The attributes of a [Backtest] that [run] reads or writes: the three
    counters, the content of [self.events], oldest first, and the
    collaborators.  [history] is not an attribute: it records, oldest first,
    every [put] and [get] on the queue and every call of [_process_event]. *)
Record Backtest : Type := mkBacktest {
  signals : Z;
  orders : Z;
  fills : Z;
  events : list Item;
  world : World;
  history : list Obs
}.

Definition set_signals (v : Z) (self : Backtest) : Backtest :=
  mkBacktest v (orders self) (fills self) (events self) (world self) (history self).
Definition set_orders (v : Z) (self : Backtest) : Backtest :=
  mkBacktest (signals self) v (fills self) (events self) (world self) (history self).
Definition set_fills (v : Z) (self : Backtest) : Backtest :=
  mkBacktest (signals self) (orders self) v (events self) (world self) (history self).
Definition set_world (w : World) (self : Backtest) : Backtest :=
  mkBacktest (signals self) (orders self) (fills self) (events self) w (history self).

(** [self.events.put(item)] for each of [items]. *)
Definition put_all (items : list Item) (self : Backtest) : Backtest :=
  mkBacktest (signals self) (orders self) (fills self) (events self ++ items)
    (world self) (history self ++ map Put items).

(** [self.events.get(False)] *)
Definition events_get : St Backtest Item :=
  fun self =>
    match events self with
    | [] => (self, Raise (Exn QueueEmpty "Empty"))
    | item :: rest =>
        (mkBacktest (signals self) (orders self) (fills self) rest (world self)
           (history self ++ [Got item]), Ok item)
    end.

Definition observe (o : Obs) (self : Backtest) : Backtest :=
  mkBacktest (signals self) (orders self) (fills self) (events self) (world self)
    (history self ++ [o]).

(** A call of a collaborator's method. *)
Definition collaborator (method : St World (list Item)) : St Backtest unit :=
  fun self =>
    match method (world self) with
    | (w, Ok items) => (put_all items (set_world w self), Ok tt)
    | (w, Raise e) => (set_world w self, Raise e)
    end.

(** [_process_event(event)] *)
Definition _process_event (event : Event) : St Backtest unit :=
  if EventType_is (event_type event) MARKET then
    collaborator (generate_signals event) ;;
    collaborator (update_timeindex event)
  else if EventType_is (event_type event) SIGNAL then
    n <- gets signals ;; modify (set_signals (n + 1)) ;;
    collaborator (update_signal event)
  else if EventType_is (event_type event) TRADE then
    n <- gets orders ;; modify (set_orders (n + 1)) ;;
    collaborator (execute_order event)
  else if EventType_is (event_type event) FILL then
    n <- gets fills ;; modify (set_fills (n + 1)) ;;
    collaborator (update_fill event)
  else ret tt.

(** How a loop ended. *)
Inductive Outcome : Set :=
| Returned
| Raised (e : exn)
| OutOfFuel.

(** The inner [while True:] of [run], each turn costing one unit of fuel. *)
Fixpoint handle_events (fuel : nat) (self : Backtest) : Backtest * Outcome :=
  match fuel with
  | O => (self, OutOfFuel)
  | S fuel' =>
      match events_get self with
      | (self1, Raise e) =>
          if caught_by QueueEmpty e then (self1, Returned) else (self1, Raised e)
      | (self1, Ok None) => handle_events fuel' self1
      | (self1, Ok (Some event)) =>
          match _process_event event (observe (Dispatched event) self1) with
          | (self2, Ok _) => handle_events fuel' self2
          | (self2, Raise e) => (self2, Raised e)
          end
      end
  end.

(** The outer [while True:] of [run]. *)
Fixpoint run_loop (fuel : nat) (self : Backtest) : Backtest * Outcome :=
  match fuel with
  | O => (self, OutOfFuel)
  | S fuel' =>
      match collaborator update_bars self with
      | (self1, Raise e) =>
          if caught_by StopIteration e then (self1, Returned)
          else (self1, Raised e)
      | (self1, Ok _) =>
          match handle_events fuel' self1 with
          | (self2, Returned) => run_loop fuel' self2
          | stopped => stopped
          end
      end
  end.

(** [pre_run_hook()]: does nothing unless overridden. *)
Definition pre_run_hook : St Backtest unit := ret tt.

(** [run()] *)
Definition run (fuel : nat) (self : Backtest) : Backtest * Outcome :=
  match pre_run_hook self with
  | (self0, Ok _) => run_loop fuel self0
  | (self0, Raise e) => (self0, Raised e)
  end.

(** *** Traces, for the statements below *)

(** The items put, the items got and the events dispatched, in order. *)
Fixpoint puts_of (tr : list Obs) : list Item :=
  match tr with
  | [] => []
  | Put item :: rest => item :: puts_of rest
  | _ :: rest => puts_of rest
  end.

Fixpoint gets_of (tr : list Obs) : list Item :=
  match tr with
  | [] => []
  | Got item :: rest => item :: gets_of rest
  | _ :: rest => gets_of rest
  end.

Fixpoint dispatched_of (tr : list Obs) : list Event :=
  match tr with
  | [] => []
  | Dispatched event :: rest => event :: dispatched_of rest
  | _ :: rest => dispatched_of rest
  end.

(** The events among a list of items. *)
Fixpoint events_among (items : list Item) : list Event :=
  match items with
  | [] => []
  | Some event :: rest => event :: events_among rest
  | None :: rest => events_among rest
  end.

(** [self'] is [self] after some activity [tr] on the queue during which
    every item that left the queue was got in the order the queue held it,
    and the events dispatched are the events got. *)
Definition accounts_for (self self' : Backtest) (tr : list Obs) : Prop :=
  history self' = history self ++ tr /\
  gets_of tr ++ events self' = events self ++ puts_of tr /\
  dispatched_of tr = events_among (gets_of tr).

(** The data handler's call that ended the run: it raised [StopIteration]
    and left the collaborators as [self'] has them. *)
Definition ended_by_StopIteration (self' : Backtest) : Prop :=
  exists w e,
    update_bars w = (world self', Raise e) /\ exn_cls e = StopIteration.

End Backtest.

Arguments Item : clear implicits.
Arguments Obs : clear implicits.
Arguments Backtest : clear implicits.

(** *** Collaborators for a worked run

    An event is its own type, the world is the number of bars the data
    handler has left.  On each bar the strategy emits a signal and a
    heartbeat of a type the dispatcher does not know, the portfolio puts a
    [None] when it records the bar and an order for each signal, the
    execution handler fills each order, and a fill puts nothing. *)

Definition demo_update_bars : St nat (list (option EventType)) :=
  fun bars =>
    match bars with
    | O => (O, Raise (Exn StopIteration "no more bars"))
    | S remaining => (remaining, Ok [Some MARKET])
    end.

Definition demo_puts (items : list (option EventType))
  : EventType -> St nat (list (option EventType)) :=
  fun _ bars => (bars, Ok items).

#[export] Instance demo : Collaborators EventType nat :=
  {| event_type := fun e => e;
     update_bars := demo_update_bars;
     generate_signals := demo_puts [Some SIGNAL; Some (OTHER "HEARTBEAT")];
     update_timeindex := demo_puts [None];
     update_signal := demo_puts [Some TRADE];
     execute_order := demo_puts [Some FILL];
     update_fill := demo_puts [] |}.

(** A fresh backtest over [bars] bars. *)
Definition demo_start (bars : nat) : Backtest EventType nat :=
  mkBacktest 0 0 0 [] bars [].

(** The backtest after [run] over one bar. *)
Definition demo_end : Backtest EventType nat :=
  mkBacktest 1 1 1 [] O
    [ Put (Some MARKET); Got (Some MARKET); Dispatched MARKET;
      Put (Some SIGNAL); Put (Some (OTHER "HEARTBEAT")); Put None;
      Got (Some SIGNAL); Dispatched SIGNAL; Put (Some TRADE);
      Got (Some (OTHER "HEARTBEAT")); Dispatched (OTHER "HEARTBEAT");
      Got None;
      Got (Some TRADE); Dispatched TRADE; Put (Some FILL);
      Got (Some FILL); Dispatched FILL ].

(** *** Collaborators whose portfolio refuses every signal

    There is no state; every bar is a MARKET event, the strategy answers
    with a signal, and [update_signal] raises [StopIteration]. *)

#[export] Instance refusing : Collaborators EventType unit :=
  {| event_type := fun e => e;
     update_bars := fun w => (w, Ok [Some MARKET]);
     generate_signals := fun _ w => (w, Ok [Some SIGNAL]);
     update_timeindex := fun _ w => (w, Ok []);
     update_signal := fun _ w => (w, Raise (Exn StopIteration "refused"));
     execute_order := fun _ w => (w, Ok []);
     update_fill := fun _ w => (w, Ok []) |}.

(** A backtest with a signal and an order queued. *)
Definition refusing_start : Backtest EventType unit :=
  mkBacktest 0 0 0 [Some SIGNAL; Some TRADE] tt [].

Section Counting.

Context {Event World : Type} {collaborators : Collaborators Event World}.

(** How many of the events [dispatched] have the type [t]. *)
Definition count_type (t : EventType) (dispatched : list Event) : Z :=
  Z.of_nat
    (List.length (filter (fun e => EventType_is (event_type e) t) dispatched)).

(** The counters of [self'] are those of [self] plus the signals, the orders
    and the fills dispatched during [tr]. *)
Definition counted (self self' : Backtest Event World) (tr : list (Obs Event))
  : Prop :=
  signals self' = signals self + count_type SIGNAL (dispatched_of tr) /\
  orders self' = orders self + count_type TRADE (dispatched_of tr) /\
  fills self' = fills self + count_type FILL (dispatched_of tr).

End Counting.

Section Causality.

Context {Event World : Type} {collaborators : Collaborators Event World}.

(** [__init__]: the counters start at zero and [self.events] is a new
    queue.  [w] stands for the collaborators [_init_trading_instances]
    builds, whose constructors are taken to put nothing on the queue. *)
Definition __init__ (w : World) : Backtest Event World :=
  mkBacktest 0 0 0 [] w [].

(** How far an event type stands from the end of the chain
    MARKET, SIGNAL, TRADE, FILL. *)
Definition rank (t : EventType) : nat :=
  match t with
  | MARKET => 3
  | SIGNAL => 2
  | TRADE => 1
  | FILL => 0
  | OTHER _ => 0
  end.

(** An item that is [None] or an event of a rank lower than [r]. *)
Definition below (r : nat) (item : Item Event) : Prop :=
  match item with
  | None => True
  | Some event => (rank (event_type event) < r)%nat
  end.

(** A method that, when it returns, has put at most [bound] items, all
    [below r]. *)
Definition tame (bound r : nat) (method : St World (list (Item Event))) : Prop :=
  forall w w' items,
    method w = (w', Ok items) ->
    (List.length items <= bound)%nat /\ Forall (below r) items.

(** Every handler, on the events the dispatcher hands it, puts at most
    [bound] items, each further down the chain than the event handled. *)
Definition causal (bound : nat) : Prop :=
  forall event,
    match event_type event with
    | MARKET => tame bound 3 (generate_signals event) /\
                tame bound 3 (update_timeindex event)
    | SIGNAL => tame bound 2 (update_signal event)
    | TRADE => tame bound 1 (execute_order event)
    | FILL => tame bound 0 (update_fill event)
    | OTHER _ => True
    end.

(** The turns of the inner loop an item of level [r] can cost: itself and
    what its handlers put. *)
Fixpoint weight (bound r : nat) : nat :=
  match r with
  | O => 1
  | S r' => S (2 * bound * weight bound r')
  end.

Definition item_weight (bound : nat) (item : Item Event) : nat :=
  match item with
  | None => weight bound 0
  | Some event => weight bound (S (rank (event_type event)))
  end.

Definition queue_weight (bound : nat) (queue : list (Item Event)) : nat :=
  list_sum (map (item_weight bound) queue).

(** The data handler runs out of bars: [bars_left] goes down with every bar
    [update_bars] delivers, which puts at most [bound] items, and no handler
    makes it go up. *)
Definition exhaustible (bound : nat) (bars_left : World -> nat) : Prop :=
  (forall w w' items,
     update_bars w = (w', Ok items) ->
     (bars_left w' < bars_left w)%nat /\ (List.length items <= bound)%nat) /\
  (forall event w,
     (bars_left (fst (generate_signals event w)) <= bars_left w)%nat /\
     (bars_left (fst (update_timeindex event w)) <= bars_left w)%nat /\
     (bars_left (fst (update_signal event w)) <= bars_left w)%nat /\
     (bars_left (fst (execute_order event w)) <= bars_left w)%nat /\
     (bars_left (fst (update_fill event w)) <= bars_left w)%nat).

End Causality.

End backtest.

(** * Properties *)

Import owned_asset.
Local Open Scope Q_scope.

(** ** The accounting of [OwnedAsset] *)
Section OwnedAssetFacts.

Context {utils : Utils}.

(** *** Basic facts *)

Lemma Qeq_bool_inject_Z (n : Z) : Qeq_bool (inject_Z n) 0 = (n =? 0)%Z.
Proof.
  unfold Qeq_bool, inject_Z; simpl.
  now rewrite Z.mul_1_r.
Qed.

Lemma _set_position_cost_and_value_run (price : Q) (self : OwnedAsset) :
  _set_position_cost_and_value price self = (booked price self, Ok tt).
Proof.
  unfold _set_position_cost_and_value, booked, bind, gets, modify.
  destruct self as [t pos pd avg lp lpt v c n]; simpl.
  destruct pos; reflexivity.
Qed.

Lemma booked_frame (price : Q) (self : OwnedAsset) :
  position (booked price self) = position self /\
  shares_owned (booked price self) = shares_owned self /\
  average_share_price_paid (booked price self) = average_share_price_paid self /\
  latest_price (booked price self) = latest_price self /\
  latest_price_time (booked price self) = latest_price_time self /\
  purchase_date (booked price self) = purchase_date self /\
  ticker (booked price self) = ticker self.
Proof.
  unfold booked. destruct self as [t pos pd avg lp lpt v c n]; simpl.
  destruct pos; simpl; repeat split; reflexivity.
Qed.

Lemma booked_value (price : Q) (self : OwnedAsset) :
  total_position_value (booked price self) ==
  total_position_value self
  + signed (position self) (price * inject_Z (shares_owned self)).
Proof.
  unfold booked, signed. destruct self as [t pos pd avg lp lpt v c n]; simpl.
  destruct pos; simpl; ring.
Qed.

Lemma booked_cost (price : Q) (self : OwnedAsset) :
  total_position_cost (booked price self) ==
  total_position_cost self
  - signed (position self) (price * inject_Z (shares_owned self)).
Proof.
  unfold booked, signed. destruct self as [t pos pd avg lp lpt v c n]; simpl.
  destruct pos; simpl; ring.
Qed.

Lemma make_trade_int_run (delta : Z) (price : Q) (self : OwnedAsset) :
  make_trade (PyInt delta) price self =
  if (shares_owned self + delta =? 0)%Z
  then (traded delta price self, Ok ReturnsNone)
  else (set_average_share_price_paid
          (total_position_value (traded delta price self)
           / inject_Z (shares_owned self + delta))
          (traded delta price self), Ok ReturnsSelf).
Proof.
  unfold make_trade, bind at 1. unfold gets at 1.
  unfold bind at 1. simpl py_add. unfold shares_owned_setter, modify at 1.
  unfold bind at 1. rewrite _set_position_cost_and_value_run.
  fold (traded delta price self).
  unfold try_except_else, bind, gets, eval, modify, py_truediv.
  assert (Hn : shares_owned (traded delta price self) = (shares_owned self + delta)%Z).
  { unfold traded. destruct (booked_frame price
      (set__shares_owned (shares_owned self + delta) self)) as (_ & -> & _).
    reflexivity. }
  rewrite Hn, Qeq_bool_inject_Z.
  destruct (shares_owned self + delta =? 0)%Z; reflexivity.
Qed.

Lemma make_trade_float_run (q : Q) (price : Q) (self : OwnedAsset) :
  make_trade (PyFloat q) price self =
  (self, Raise (Exn TypeError "shares_owned MUST be an integer.")).
Proof. reflexivity. Qed.

(** *** Construction *)

(** The object a constructor call builds from an integral share count, a
    valid side and a date that parses. *)
Lemma init_run (t : string) (n : Z) (pos : PositionArg) (side : Position)
    (p : Q) (d : option DateArg) :
  check_if_valid pos = Ok side -> date_parses d ->
  exists pd,
    __init__ t (PyInt n) pos p d =
    Ok (booked p (mkOwnedAsset t side pd p p (AsTime (time_of pd)) 0 0 n)).
Proof.
  intros Hside Hd. unfold __init__; rewrite Hside; simpl rbind.
  assert (Hpd : exists pd, match d with None => Ok now | Some x => parse_date x end
                           = Ok pd).
  { destruct d as [x|]; [destruct Hd as [ts Hts]; now exists ts | now exists now]. }
  destruct Hpd as [pd ->]. simpl rbind. exists pd.
  unfold bind at 1; unfold shares_owned_setter, modify at 1.
  now rewrite _set_position_cost_and_value_run.
Qed.

Lemma init_books (t : string) (n : Z) (side : Position) (p : Q)
    (pd : Timestamp) :
  let self := booked p (mkOwnedAsset t side pd p p (AsTime (time_of pd)) 0 0 n) in
  ticker self = t /\ position self = side /\ shares_owned self = n /\
  average_share_price_paid self = p /\ latest_price self = p /\
  total_position_value self == signed side (inject_Z n * p) /\
  total_position_cost self == - signed side (inject_Z n * p).
Proof.
  unfold booked, signed; destruct side; simpl; repeat split; ring.
Qed.

(** A constructor call on an integral share count, a side that
    [check_if_valid] accepts and a date that parses returns an object whose
    average and latest price are the price given, whose value is [n * p]
    (negated for SHORT), whose cost is the opposite, and whose value and cost
    cancel. *)
Lemma init_establishes (t : string) (n : Z) (pos : PositionArg)
    (side : Position) (p : Q) (d : option DateArg) :
  check_if_valid pos = Ok side -> date_parses d ->
  exists self,
    __init__ t (PyInt n) pos p d = Ok self /\
    ticker self = t /\ position self = side /\ shares_owned self = n /\
    average_share_price_paid self = p /\ latest_price self = p /\
    total_position_value self == signed side (inject_Z n * p) /\
    total_position_cost self == - signed side (inject_Z n * p) /\
    total_position_value self + total_position_cost self == 0.
Proof.
  intros Hside Hd. destruct (init_run t n pos side p d Hside Hd) as [pd Hrun].
  destruct (init_books t n side p pd) as (Ht & Hs & Hn & Ha & Hl & Hv & Hc).
  eexists; split; [exact Hrun|].
  repeat (split; [assumption|]). rewrite Hv, Hc. ring.
Qed.

Lemma init_non_integral (t : string) (q : Q) (pos : PositionArg) (p : Q)
    (d : option DateArg) :
  exists e, __init__ t (PyFloat q) pos p d = Raise e /\
    (forall side, check_if_valid pos = Ok side -> date_parses d ->
       e = Exn TypeError "shares_owned MUST be an integer.").
Proof.
  unfold __init__. destruct (check_if_valid pos) as [side|e0]; simpl rbind.
  - destruct d as [x|]; simpl.
    + destruct (parse_date x) as [ts|e] eqn:Hx; simpl.
      * eexists; split; [reflexivity|]. intros; reflexivity.
      * exists e; split; [reflexivity|]. intros ? _ [ts Hts]. discriminate.
    + eexists; split; [reflexivity|]. intros; reflexivity.
  - exists e0; split; [reflexivity|]. intros side H. discriminate.
Qed.

(** A side that [check_if_valid] refuses makes the constructor fail with
    the exception [check_if_valid] raised, before anything else is looked
    at. *)
Lemma init_invalid_side (t : string) (n : pynum) (pos : PositionArg) (p : Q)
    (d : option DateArg) (e : exn) :
  check_if_valid pos = Raise e ->
  __init__ t n pos p d = Raise e.
Proof. intros H. unfold __init__. now rewrite H. Qed.

Lemma init_Ok_integral (t : string) (n : pynum) (pos : PositionArg) (p : Q)
    (d : option DateArg) (self : OwnedAsset) :
  __init__ t n pos p d = Ok self ->
  exists z, n = PyInt z /\ shares_owned self = z.
Proof.
  destruct n as [z|q].
  - intros H. exists z; split; [reflexivity|].
    unfold __init__ in H. destruct (check_if_valid pos) as [side|e]; simpl in H;
      [|discriminate].
    destruct (match d with None => Ok now | Some x => parse_date x end)
      as [pd|e]; simpl in H; [|discriminate].
    unfold bind at 1 in H; unfold shares_owned_setter, modify at 1 in H.
    rewrite _set_position_cost_and_value_run in H.
    injection H as <-.
    destruct (booked_frame p (set__shares_owned z
      (mkOwnedAsset t side pd p p (AsTime (time_of pd)) 0 0 0))) as (_ & -> & _).
    reflexivity.
  - intros H. destruct (init_non_integral t q pos p d) as (e & He & _).
    rewrite He in H. discriminate.
Qed.

(** [from_trade] passes the price under the keyword [average_share_price];
    the parameter of [__init__] is [avg_share_price]. *)
Lemma from_trade_run (trade : Trade) (asset_position : PositionArg) :
  from_trade trade asset_position =
  Raise (Exn TypeError
    "__init__() got an unexpected keyword argument average_share_price").
Proof. reflexivity. Qed.

Lemma make_trade_Ok_integral (qty : pynum) (price : Q) (self self' : OwnedAsset)
    (r : TradeReturn) :
  make_trade qty price self = (self', Ok r) ->
  exists z, qty = PyInt z /\ shares_owned self' = (shares_owned self + z)%Z.
Proof.
  destruct qty as [z|q]; intros H.
  - exists z; split; [reflexivity|].
    rewrite make_trade_int_run in H.
    assert (Hn : shares_owned (traded z price self) = (shares_owned self + z)%Z).
    { unfold traded. destruct (booked_frame price
        (set__shares_owned (shares_owned self + z) self)) as (_ & -> & _).
      reflexivity. }
    destruct (shares_owned self + z =? 0)%Z; injection H as <- _; exact Hn.
  - rewrite make_trade_float_run in H. discriminate.
Qed.

(** *** Claims about single calls *)


(** C7.  [update_total_position_value(latest_price, price_date)], when the
    date parses, sets [latest_price] to the price given, [latest_price_time]
    to the parsed date, and [total_position_value] to
    [shares_owned * latest_price] for LONG and to its negation for SHORT;
    the share count, the side, the cost and the average are not touched. *)
Theorem update_total_position_value_sets (self : OwnedAsset) (price : Q)
    (price_date : DateArg) (ts : Timestamp) :
  parse_date price_date = Ok ts ->
  exists self',
    update_total_position_value price price_date self = (self', Ok tt) /\
    latest_price self' = price /\
    latest_price_time self' = AsTimestamp ts /\
    match position self with
    | LONG => total_position_value self'
              == inject_Z (shares_owned self') * latest_price self'
    | SHORT => total_position_value self'
               == - (inject_Z (shares_owned self') * latest_price self')
    end /\
    shares_owned self' = shares_owned self /\
    position self' = position self /\
    total_position_cost self' = total_position_cost self /\
    average_share_price_paid self' = average_share_price_paid self.
Proof.
  intros Hts.
  unfold update_total_position_value, bind, modify, eval, gets.
  rewrite Hts.
  destruct self as [t pos pd avg lp lpt v c n]; simpl.
  destruct pos; simpl; eexists; (split; [reflexivity|]); simpl;
    repeat split; ring.
Qed.

(** C8.  A share count that is not integral is refused with a [TypeError],
    by the constructor (when the side is valid and the date parses; the call
    fails whatever they are), by [from_trade] and by [make_trade], which
    leaves the object as it was; a position side that [check_if_valid]
    refuses makes the constructor fail; and after a constructor or
    [make_trade] call that succeeds the count given was an [int] and
    [shares_owned] is the integer it determines. *)
Theorem shares_owned_is_never_coerced :
  (forall t q pos p d,
     exists e, __init__ t (PyFloat q) pos p d = Raise e /\
       (forall side, check_if_valid pos = Ok side -> date_parses d ->
          exn_cls e = TypeError)) /\
  (forall trade pos, raises TypeError (from_trade trade pos)) /\
  (forall q price self,
     fst (make_trade (PyFloat q) price self) = self /\
     raises TypeError (snd (make_trade (PyFloat q) price self))) /\
  (forall t n pos p d e,
     check_if_valid pos = Raise e -> __init__ t n pos p d = Raise e) /\
  (forall t n pos p d self,
     __init__ t n pos p d = Ok self ->
     exists z, n = PyInt z /\ shares_owned self = z) /\
  (forall qty price self self' r,
     make_trade qty price self = (self', Ok r) ->
     exists z, qty = PyInt z /\ shares_owned self' = (shares_owned self + z)%Z).
Proof.
  split; [|split; [|split; [|split; [|split]]]].
  - intros t q pos p d.
    destruct (init_non_integral t q pos p d) as (e & He & Hcls).
    exists e; split; [exact He|].
    intros side Hs Hd. now rewrite (Hcls side Hs Hd).
  - intros trade pos. rewrite from_trade_run. eexists; reflexivity.
  - intros q price self. rewrite make_trade_float_run; simpl.
    split; [reflexivity | eexists; reflexivity].
  - exact init_invalid_side.
  - exact init_Ok_integral.
  - exact make_trade_Ok_integral.
Qed.

(** C9.  [return_on_investment] never returns a value: its first statement
    calls [update_total_position_value] with no argument, the call raises
    [TypeError], and the object is left as it was. *)
Theorem return_on_investment_always_raises (self : OwnedAsset) :
  fst (return_on_investment self) = self /\
  raises TypeError (snd (return_on_investment self)).
Proof.
  unfold return_on_investment, call_update_total_position_value, bind, raise.
  simpl. split; [reflexivity|]. eexists; reflexivity.
Qed.

(** C10.  [from_trade] constructs nothing: for every trade and side the
    keyword call of the constructor raises [TypeError]. *)
Theorem from_trade_never_constructs (trade : Trade) (asset_position : PositionArg) :
  raises TypeError (from_trade trade asset_position) /\
  forall self, Ok self = from_trade trade asset_position -> False.
Proof.
  rewrite from_trade_run. split.
  - eexists; reflexivity.
  - intros self H. discriminate.
Qed.

(** *** What a sequence of fills does to the books *)

Lemma traded_frame (delta : Z) (price : Q) (self : OwnedAsset) :
  position (traded delta price self) = position self /\
  shares_owned (traded delta price self) = (shares_owned self + delta)%Z /\
  latest_price (traded delta price self) = latest_price self.
Proof.
  unfold traded.
  destruct (booked_frame price (set__shares_owned (shares_owned self + delta) self))
    as (Hp & Hn & _ & Hl & _).
  rewrite Hp, Hn, Hl. destruct self; repeat split.
Qed.

Lemma traded_value (delta : Z) (price : Q) (self : OwnedAsset) :
  total_position_value (traded delta price self) ==
  total_position_value self
  + signed (position self) (price * inject_Z (shares_owned self + delta)).
Proof.
  unfold traded. rewrite booked_value. destruct self; reflexivity.
Qed.

Lemma traded_cost (delta : Z) (price : Q) (self : OwnedAsset) :
  total_position_cost (traded delta price self) ==
  total_position_cost self
  - signed (position self) (price * inject_Z (shares_owned self + delta)).
Proof.
  unfold traded. rewrite booked_cost. destruct self; reflexivity.
Qed.

(** Each fill books its price times the share count held after the fill,
    not times the quantity filled. *)
Lemma make_trade_books_whole_position (delta : Z) (price : Q) (self : OwnedAsset) :
  let self' := fst (make_trade (PyInt delta) price self) in
  shares_owned self' = (shares_owned self + delta)%Z /\
  total_position_value self' ==
    total_position_value self
    + signed (position self) (price * inject_Z (shares_owned self + delta)) /\
  total_position_cost self' ==
    total_position_cost self
    - signed (position self) (price * inject_Z (shares_owned self + delta)).
Proof.
  cbv zeta. rewrite make_trade_int_run.
  destruct (traded_frame delta price self) as (_ & Hn & _).
  pose proof (traded_value delta price self) as Hv.
  pose proof (traded_cost delta price self) as Hc.
  destruct (shares_owned self + delta =? 0)%Z; cbn [fst].
  - now split; [|split].
  - split; [|split].
    + rewrite <- Hn. now destruct (traded delta price self).
    + rewrite <- Hv. now destruct (traded delta price self).
    + rewrite <- Hc. now destruct (traded delta price self).
Qed.

(** The average [make_trade] stores when the position stays open. *)
Lemma make_trade_average (delta : Z) (price : Q) (self : OwnedAsset) :
  (shares_owned self + delta <> 0)%Z ->
  snd (make_trade (PyInt delta) price self) = Ok ReturnsSelf /\
  average_share_price_paid (fst (make_trade (PyInt delta) price self)) ==
    (total_position_value self
     + signed (position self) (price * inject_Z (shares_owned self + delta)))
    / inject_Z (shares_owned self + delta).
Proof.
  intros Hn. rewrite make_trade_int_run.
  destruct (Z.eqb_spec (shares_owned self + delta) 0) as [E|_]; [contradiction|].
  cbn [fst snd]. split; [reflexivity|].
  unfold set_average_share_price_paid; cbn [average_share_price_paid].
  now rewrite traded_value.
Qed.

(** Value and cost move by opposite amounts on every fill, so their sum never
    changes; it is zero from construction on, whatever the fill prices. *)
Lemma make_trades_run (fills : list (Z * Q)) (self : OwnedAsset) :
  exists self',
    make_trades fills self = (self', Ok tt) /\
    position self' = position self /\
    shares_owned self' = (shares_owned self + total_quantity fills)%Z /\
    latest_price self' = latest_price self /\
    total_position_value self' + total_position_cost self' ==
    total_position_value self + total_position_cost self.
Proof.
  revert self. induction fills as [|[q p] rest IH]; intros self.
  - exists self. simpl. repeat split; try reflexivity. now rewrite Z.add_0_r.
  - simpl make_trades. unfold bind.
    destruct (make_trade_books_whole_position q p self) as (Hn & Hv & Hc).
    assert (Hf : position (fst (make_trade (PyInt q) p self)) = position self /\
                 latest_price (fst (make_trade (PyInt q) p self)) = latest_price self).
    { rewrite make_trade_int_run.
      destruct (traded_frame q p self) as (Hp & _ & Hl).
      destruct (shares_owned self + q =? 0)%Z; cbn [fst]; [now split|].
      rewrite <- Hp, <- Hl. now destruct (traded q p self). }
    destruct Hf as (Hp & Hl).
    assert (Hok : exists r, snd (make_trade (PyInt q) p self) = Ok r).
    { rewrite make_trade_int_run.
      destruct (shares_owned self + q =? 0)%Z; eexists; reflexivity. }
    destruct Hok as [r Hr].
    destruct (make_trade (PyInt q) p self) as [s1 r1]; cbn [fst snd] in *.
    subst r1.
    destruct (IH s1) as (s2 & Hrun & Hp2 & Hn2 & Hl2 & Hsum).
    exists s2. split; [exact Hrun|].
    split; [congruence|]. split.
    + rewrite Hn2, Hn. unfold total_quantity; simpl. ring.
    + split; [congruence|]. rewrite Hsum, Hv, Hc. ring.
Qed.

(** C2, as the code has it.  At construction the sign convention holds: for
    LONG the cost is the negative of the cash paid and the value is
    [shares_owned * latest_price], for SHORT both signs are inverted.  Fills
    applied with [make_trade] keep the side and leave [latest_price] alone,
    and move value and cost by opposite amounts: their sum is still zero
    after any number of fills. *)
Theorem sign_convention_from_construction (t : string) (n : Z)
    (pos : PositionArg) (side : Position) (p : Q) (d : option DateArg)
    (fills : list (Z * Q)) :
  check_if_valid pos = Ok side -> date_parses d ->
  exists opened filled,
    __init__ t (PyInt n) pos p d = Ok opened /\
    match side with
    | LONG =>
        total_position_cost opened == - (p * inject_Z n) /\
        total_position_value opened
        == inject_Z (shares_owned opened) * latest_price opened
    | SHORT =>
        total_position_cost opened == p * inject_Z n /\
        total_position_value opened
        == - (inject_Z (shares_owned opened) * latest_price opened)
    end /\
    make_trades fills opened = (filled, Ok tt) /\
    position filled = side /\
    shares_owned filled = (n + total_quantity fills)%Z /\
    latest_price filled = p /\
    total_position_value filled + total_position_cost filled == 0.
Proof.
  intros Hpos Hd. destruct (init_run t n pos side p d Hpos Hd) as [pd Hinit].
  destruct (init_books t n side p pd) as (_ & Hside & Hn & _ & Hlp & Hv & Hc).
  set (opened := booked p (mkOwnedAsset t side pd p p (AsTime (time_of pd)) 0 0 n))
    in *.
  destruct (make_trades_run fills opened)
    as (filled & Hrun & Hside' & Hn' & Hlp' & Hsum').
  exists opened, filled.
  split; [exact Hinit|]. split.
  - rewrite Hn, Hlp. unfold signed in Hv, Hc.
    destruct side; split; rewrite ?Hv, ?Hc; ring.
  - split; [exact Hrun|]. split; [congruence|]. split; [congruence|].
    split; [congruence|]. rewrite Hsum', Hv, Hc. ring.
Qed.

End OwnedAssetFacts.

(** *** Worked examples *)

Example init_long_10_at_10 :
  __init__ "X" (PyInt 10) "LONG"%string 10 None = Ok long_10_at_10.
Proof. reflexivity. Qed.

(** C1.  Ten shares held at 10 and ten more bought at 10 leave
    [average_share_price_paid] at 15, where the quantity-weighted average of
    the two fills is 10; and the fills 10 at 10 then 20 at 10 applied one by
    one leave 35/2, where the single fill of 30 at 10 that combines them
    leaves 25/2. *)
Theorem repeated_fills_average_is_not_weighted :
  exists once one_by_one combined,
    make_trade (PyInt 10) 10 long_10_at_10 = (once, Ok ReturnsSelf) /\
    average_share_price_paid once == 15 /\
    weighted_average [(10%Z, 10); (10%Z, 10)] == 10 /\
    make_trades [(10%Z, 10); (20%Z, 10)] long_10_at_10 = (one_by_one, Ok tt) /\
    make_trade (PyInt 30) 10 long_10_at_10 = (combined, Ok ReturnsSelf) /\
    average_share_price_paid one_by_one == 35 # 2 /\
    average_share_price_paid combined == 25 # 2 /\
    weighted_average [(10%Z, 10); (10%Z, 10); (20%Z, 10)] == 10.
Proof.
  do 3 eexists.
  split; [reflexivity|]. split; [reflexivity|]. split; [reflexivity|].
  split; [reflexivity|]. split; [reflexivity|].
  repeat split; reflexivity.
Qed.

(** C2, as the design document has it, fails.  Ten shares bought at 10 and
    ten more at 20: the cash paid out is 300 and twenty shares are held, but
    the fill leaves [total_position_cost] at -500, not -300, and
    [total_position_value] at 500, where [shares_owned * latest_price] is
    200; their sum is 0, where the position bought for 300 is worth 400 at
    the fill price. *)
Lemma fill_breaks_sign_convention :
  exists filled,
    make_trade (PyInt 10) 20 long_10_at_10 = (filled, Ok ReturnsSelf) /\
    shares_owned filled = 20%Z /\
    cumulative_outflow [(10%Z, 10); (10%Z, 20)] == 300 /\
    total_position_cost filled == - (500) /\
    total_position_value filled == 500 /\
    inject_Z (shares_owned filled) * latest_price filled == 200 /\
    total_position_value filled + total_position_cost filled == 0 /\
    inject_Z (shares_owned filled) * 20
      - cumulative_outflow [(10%Z, 10); (10%Z, 20)] == 100.
Proof.
  eexists. split; [reflexivity|]. repeat split; reflexivity.
Qed.

Lemma sign_convention_from_construction_witness :
  exists opened filled,
    __init__ "X" (PyInt 10) "SHORT"%string 10 None = Ok opened /\
    (total_position_cost opened == 10 * inject_Z 10 /\
     total_position_value opened
     == - (inject_Z (shares_owned opened) * latest_price opened)) /\
    make_trades two_fills opened = (filled, Ok tt) /\
    position filled = SHORT /\
    shares_owned filled = (10 + total_quantity two_fills)%Z /\
    latest_price filled = 10 /\
    total_position_value filled + total_position_cost filled == 0.
Proof.
  apply (sign_convention_from_construction (utils := by_day_and_name)
           "X" 10%Z "SHORT"%string SHORT 10 None two_fills);
    [reflexivity | exact I].
Defined.

Lemma init_establishes_witness :
  exists self,
    __init__ "X" (PyInt 10) "LONG"%string 10 None = Ok self /\
    ticker self = "X"%string /\ position self = LONG /\ shares_owned self = 10%Z /\
    average_share_price_paid self = 10 /\ latest_price self = 10 /\
    total_position_value self == signed LONG (inject_Z 10 * 10) /\
    total_position_cost self == - signed LONG (inject_Z 10 * 10) /\
    total_position_value self + total_position_cost self == 0.
Proof.
  apply (init_establishes (utils := by_day_and_name)
           "X" 10%Z "LONG"%string LONG 10 None);
    [reflexivity | exact I].
Defined.


Lemma update_total_position_value_witness :
  exists self',
    update_total_position_value 12 5%Z long_10_at_10 = (self', Ok tt) /\
    latest_price self' = 12 /\
    latest_price_time self' = AsTimestamp 5%Z /\
    match position long_10_at_10 with
    | LONG => total_position_value self'
              == inject_Z (shares_owned self') * latest_price self'
    | SHORT => total_position_value self'
               == - (inject_Z (shares_owned self') * latest_price self')
    end /\
    shares_owned self' = shares_owned long_10_at_10 /\
    position self' = position long_10_at_10 /\
    total_position_cost self' = total_position_cost long_10_at_10 /\
    average_share_price_paid self' = average_share_price_paid long_10_at_10.
Proof.
  apply (update_total_position_value_sets long_10_at_10 12 5%Z 5%Z).
  reflexivity.
Defined.

(** ** More of [OwnedAsset]: marking to market *)
Section OwnedAssetMarking.

Context {utils : Utils}.

(** The object [update_total_position_value] leaves when the date parses. *)
Lemma update_total_position_value_run (self : OwnedAsset) (price : Q)
    (price_date : DateArg) (ts : Timestamp) :
  parse_date price_date = Ok ts ->
  update_total_position_value price price_date self =
  (set_total_position_value
     (match position self with
      | SHORT => (price * inject_Z (shares_owned self)) * -1
      | LONG => price * inject_Z (shares_owned self)
      end)
     (set_latest_price_time (AsTimestamp ts) (set_latest_price price self)),
   Ok tt).
Proof.
  intros Hts.
  unfold update_total_position_value, bind, modify, eval, gets.
  rewrite Hts. destruct self as [t pos pd avg lp lpt v c n]; simpl.
  destruct pos; reflexivity.
Qed.


(** A date that does not parse: the call raises what [parse_date] raised,
    after [latest_price] has been overwritten and before anything else is:
    [latest_price_time] and [total_position_value] keep their old values. *)
Theorem update_total_position_value_bad_date (self : OwnedAsset) (price : Q)
    (price_date : DateArg) (e : exn) :
  parse_date price_date = Raise e ->
  exists self',
    update_total_position_value price price_date self = (self', Raise e) /\
    latest_price self' = price /\
    latest_price_time self' = latest_price_time self /\
    total_position_value self' = total_position_value self /\
    total_position_cost self' = total_position_cost self /\
    shares_owned self' = shares_owned self /\
    average_share_price_paid self' = average_share_price_paid self.
Proof.
  intros He. exists (set_latest_price price self).
  unfold update_total_position_value, bind, modify, eval.
  rewrite He. destruct self; repeat split.
Qed.

(** Marking to market forgets every earlier mark: two calls leave the
    object the second call alone would leave. *)
Theorem mark_to_market_overwrites (self : OwnedAsset) (p1 p2 : Q)
    (d1 d2 : DateArg) (ts1 ts2 : Timestamp) :
  parse_date d1 = Ok ts1 -> parse_date d2 = Ok ts2 ->
  fst (update_total_position_value p2 d2
         (fst (update_total_position_value p1 d1 self)))
  = fst (update_total_position_value p2 d2 self).
Proof.
  intros H1 H2.
  rewrite (update_total_position_value_run self p1 d1 ts1 H1).
  rewrite !(update_total_position_value_run _ p2 d2 ts2 H2).
  destruct self as [t pos pd avg lp lpt v c n]; destruct pos; reflexivity.
Qed.

End OwnedAssetMarking.

(** ** More of [OwnedAsset]: fills *)
Section OwnedAssetFills.

Context {utils : Utils}.


(** What a fill of an integral quantity leaves alone. *)
Lemma make_trade_int_frame (delta : Z) (price : Q) (self : OwnedAsset) :
  let self' := fst (make_trade (PyInt delta) price self) in
  shares_owned self' = (shares_owned self + delta)%Z /\
  ticker self' = ticker self /\
  position self' = position self /\
  purchase_date self' = purchase_date self /\
  latest_price self' = latest_price self /\
  latest_price_time self' = latest_price_time self.
Proof.
  cbv zeta. rewrite make_trade_int_run.
  assert (H : shares_owned (traded delta price self) = (shares_owned self + delta)%Z /\
              ticker (traded delta price self) = ticker self /\
              position (traded delta price self) = position self /\
              purchase_date (traded delta price self) = purchase_date self /\
              latest_price (traded delta price self) = latest_price self /\
              latest_price_time (traded delta price self) = latest_price_time self).
  { unfold traded.
    destruct (booked_frame price (set__shares_owned (shares_owned self + delta) self))
      as (Hp & Hn & _ & Hl & Hlt & Hpd & Ht).
    rewrite Hp, Hn, Hl, Hlt, Hpd, Ht. destruct self; repeat split. }
  destruct (shares_owned self + delta =? 0)%Z; cbn [fst]; [exact H|].
  destruct (traded delta price self); exact H.
Qed.




(** The constructor establishes the sign convention on a share count and a
    price that are not negative. *)
Theorem init_sign_convention (t : string) (n : Z) (pos : PositionArg)
    (side : Position) (p : Q) (d : option DateArg) :
  check_if_valid pos = Ok side -> date_parses d ->
  (0 <= n)%Z -> 0 <= p ->
  exists self, __init__ t (PyInt n) pos p d = Ok self /\ sign_convention self.
Proof.
  intros Hpos Hd Hn Hp.
  destruct (init_run t n pos side p d Hpos Hd) as [pd Hinit].
  destruct (init_books t n side p pd) as (_ & Hside & _ & _ & _ & Hv & Hc).
  eexists; split; [exact Hinit|].
  assert (Hnp : 0 <= inject_Z n * p).
  { apply Qmult_le_0_compat; [|exact Hp].
    change 0 with (inject_Z 0). now rewrite <- Zle_Qle. }
  unfold sign_convention. rewrite Hside.
  unfold signed in Hv, Hc. destruct side; rewrite Hv, Hc; lra.
Qed.

(** A fill at a price that is not negative keeps the sign convention as
    long as the share count it leaves is not negative. *)
Theorem make_trade_keeps_sign_convention (delta : Z) (price : Q)
    (self : OwnedAsset) :
  sign_convention self ->
  0 <= price -> (0 <= shares_owned self + delta)%Z ->
  sign_convention (fst (make_trade (PyInt delta) price self)).
Proof.
  intros Hconv Hp Hn.
  destruct (make_trade_books_whole_position delta price self) as (_ & Hv & Hc).
  destruct (make_trade_int_frame delta price self) as (_ & _ & Hside & _).
  assert (Hm : 0 <= price * inject_Z (shares_owned self + delta)).
  { apply Qmult_le_0_compat; [exact Hp|].
    change 0 with (inject_Z 0). now rewrite <- Zle_Qle. }
  unfold sign_convention in *. rewrite Hside.
  unfold signed in Hv, Hc. destruct (position self); rewrite Hv, Hc; lra.
Qed.

(** On a short position whose value is not positive, a fill at a positive
    price that leaves shares stores a negative average price. *)
Theorem short_fill_stores_negative_average (delta : Z) (price : Q)
    (self : OwnedAsset) :
  position self = SHORT -> total_position_value self <= 0 ->
  0 < price -> (0 < shares_owned self + delta)%Z ->
  average_share_price_paid (fst (make_trade (PyInt delta) price self)) < 0.
Proof.
  intros Hpos Hv Hp Hn.
  assert (Hopen : (shares_owned self + delta <> 0)%Z) by lia.
  destruct (make_trade_average delta price self Hopen) as (_ & ->).
  rewrite Hpos. unfold signed.
  assert (Hq : 0 < inject_Z (shares_owned self + delta)).
  { change 0 with (inject_Z 0). now rewrite <- Zlt_Qlt. }
  apply Qlt_shift_div_r; [exact Hq|].
  assert (Hm : 0 < price * inject_Z (shares_owned self + delta))
    by (apply Qmult_lt_0_compat; assumption).
  lra.
Qed.

(** The dates of a constructed object: the purchase date is the date given,
    parsed, or the reading of the clock when none is given, and
    [latest_price_time] is its time of day; a date that does not parse makes
    the constructor raise what [parse_date] raised, whatever the share
    count. *)
Theorem init_dates (t : string) (pos : PositionArg) (side : Position) (p : Q) :
  check_if_valid pos = Ok side ->
  (forall n, exists self,
      __init__ t (PyInt n) pos p None = Ok self /\
      purchase_date self = now /\
      latest_price_time self = AsTime (time_of now)) /\
  (forall n x ts, parse_date x = Ok ts ->
     exists self,
       __init__ t (PyInt n) pos p (Some x) = Ok self /\
       purchase_date self = ts /\
       latest_price_time self = AsTime (time_of ts)) /\
  (forall shares x e, parse_date x = Raise e ->
     __init__ t shares pos p (Some x) = Raise e).
Proof.
  intros Hpos.
  assert (Hdates : forall n pd,
            purchase_date (booked p (mkOwnedAsset t side pd p p
                                       (AsTime (time_of pd)) 0 0 n)) = pd /\
            latest_price_time (booked p (mkOwnedAsset t side pd p p
                                           (AsTime (time_of pd)) 0 0 n))
            = AsTime (time_of pd)).
  { intros n pd.
    destruct (booked_frame p (mkOwnedAsset t side pd p p (AsTime (time_of pd)) 0 0 n))
      as (_ & _ & _ & _ & Hlt & Hpd & _).
    now rewrite Hlt, Hpd. }
  split; [|split].
  - intros n. unfold __init__. rewrite Hpos; simpl rbind.
    unfold bind at 1; unfold shares_owned_setter, modify at 1.
    rewrite _set_position_cost_and_value_run.
    eexists; split; [reflexivity|]. apply Hdates.
  - intros n x ts Hts. unfold __init__. rewrite Hpos; simpl rbind.
    rewrite Hts; simpl rbind.
    unfold bind at 1; unfold shares_owned_setter, modify at 1.
    rewrite _set_position_cost_and_value_run.
    eexists; split; [reflexivity|]. apply Hdates.
  - intros shares x e He. unfold __init__. rewrite Hpos; simpl rbind.
    now rewrite He.
Qed.

End OwnedAssetFills.

(** *** Worked examples *)

Example init_short_10_at_10 :
  __init__ "X" (PyInt 10) "SHORT"%string 10 None = Ok short_10_at_10.
Proof. reflexivity. Qed.


Lemma update_total_position_value_bad_date_witness :
  exists self',
    update_total_position_value 12 (-1)%Z long_10_at_10
    = (self', Raise (Exn Exception "not a date")) /\
    latest_price self' = 12 /\
    latest_price_time self' = latest_price_time long_10_at_10 /\
    total_position_value self' = total_position_value long_10_at_10 /\
    total_position_cost self' = total_position_cost long_10_at_10 /\
    shares_owned self' = shares_owned long_10_at_10 /\
    average_share_price_paid self' = average_share_price_paid long_10_at_10.
Proof.
  apply (update_total_position_value_bad_date (utils := by_day_and_name)
           long_10_at_10 12 (-1)%Z (Exn Exception "not a date")).
  reflexivity.
Defined.

Lemma mark_to_market_overwrites_witness :
  fst (update_total_position_value 13 6%Z
         (fst (update_total_position_value 12 5%Z long_10_at_10)))
  = fst (update_total_position_value 13 6%Z long_10_at_10).
Proof.
  apply (mark_to_market_overwrites (utils := by_day_and_name)
           long_10_at_10 12 13 5%Z 6%Z 5%Z 6%Z); reflexivity.
Defined.



Lemma init_sign_convention_witness :
  exists self,
    __init__ "X" (PyInt 10) "SHORT"%string 10 None = Ok self /\
    sign_convention self.
Proof.
  apply (init_sign_convention (utils := by_day_and_name)
           "X" 10%Z "SHORT"%string SHORT 10 None);
    [reflexivity | exact I | lia | lra].
Defined.

Lemma make_trade_keeps_sign_convention_witness :
  sign_convention (fst (make_trade (PyInt 10) 20 short_10_at_10)).
Proof.
  apply (make_trade_keeps_sign_convention 10 20 short_10_at_10);
    [split; simpl; lra | lra | simpl; lia].
Defined.

Lemma short_fill_stores_negative_average_witness :
  average_share_price_paid (fst (make_trade (PyInt 10) 20 short_10_at_10)) < 0.
Proof.
  apply (short_fill_stores_negative_average 10 20 short_10_at_10);
    [reflexivity | simpl; lra | lra | simpl; lia].
Defined.

Lemma init_dates_witness :
  (forall n, exists self,
      __init__ "X" (PyInt n) "LONG"%string 10 None = Ok self /\
      purchase_date self = now /\
      latest_price_time self = AsTime (time_of now)) /\
  (forall n x ts, parse_date x = Ok ts ->
     exists self,
       __init__ "X" (PyInt n) "LONG"%string 10 (Some x) = Ok self /\
       purchase_date self = ts /\
       latest_price_time self = AsTime (time_of ts)) /\
  (forall shares x e, parse_date x = Raise e ->
     __init__ "X" shares "LONG"%string 10 (Some x) = Raise e).
Proof.
  apply (init_dates (utils := by_day_and_name) "X" "LONG"%string LONG 10).
  reflexivity.
Defined.

(** ** The liquidity check *)

Import portfolio.

Example test_check_liquidity_passes :
  forallb (fun ok => ok) test_check_liquidity = true.
Proof. reflexivity. Qed.

(** C4.  For a quantity that is not negative [check_liquidity] is false
    exactly when [price * qty] exceeds the cash; for a negative quantity it
    is true whatever the price and the cash. *)
Theorem check_liquidity_false_iff (self : Portfolio) (price : Q) (qty : Z) :
  ((0 <= qty)%Z ->
     (check_liquidity self price qty = false <-> cash self < price * inject_Z qty)) /\
  ((qty < 0)%Z -> check_liquidity self price qty = true).
Proof.
  unfold check_liquidity. split; intros Hq.
  - destruct (Z.ltb_spec qty 0) as [Hneg|_]; [lia|].
    split; intros H.
    + apply Qnot_le_lt. intros Hle.
      apply Qle_bool_iff in Hle. rewrite Hle in H. discriminate.
    + destruct (Qle_bool (price * inject_Z qty) (cash self)) eqn:E;
        [|reflexivity].
      apply Qle_bool_iff in E. exfalso. exact (Qlt_not_le _ _ H E).
  - destruct (Z.ltb_spec qty 0) as [_|Hpos]; [reflexivity|lia].
Qed.

Close Scope Q_scope.

(** ** The event loop of [Backtest] *)

Import backtest.

Section BacktestFacts.

Context {Event World : Type} {collaborators : Collaborators Event World}.

Local Abbreviation Backtest := (Backtest Event World).
Local Abbreviation Obs := (Obs Event).
Local Abbreviation Item := (Item Event).

(** *** Traces *)

Lemma puts_of_app (a b : list Obs) : puts_of (a ++ b) = puts_of a ++ puts_of b.
Proof.
  induction a as [|o a IH]; [reflexivity|].
  destruct o; simpl; now rewrite IH.
Qed.

Lemma gets_of_app (a b : list Obs) : gets_of (a ++ b) = gets_of a ++ gets_of b.
Proof.
  induction a as [|o a IH]; [reflexivity|].
  destruct o; simpl; now rewrite IH.
Qed.

Lemma dispatched_of_app (a b : list Obs) :
  dispatched_of (a ++ b) = dispatched_of a ++ dispatched_of b.
Proof.
  induction a as [|o a IH]; [reflexivity|].
  destruct o; simpl; now rewrite IH.
Qed.

Lemma events_among_app (a b : list Item) :
  events_among (a ++ b) = events_among a ++ events_among b.
Proof.
  induction a as [|[e|] a IH]; simpl; [reflexivity| |]; now rewrite IH.
Qed.

Lemma trace_of_puts (items : list Item) :
  puts_of (map Put items) = items /\
  gets_of (map Put items) = [] /\
  dispatched_of (map Put items) = [].
Proof.
  induction items as [|i items (IHp & IHg & IHd)]; simpl; [easy|].
  now rewrite IHp, IHg, IHd.
Qed.

Lemma accounts_for_nothing (self self' : Backtest) :
  history self' = history self -> events self' = events self ->
  accounts_for self self' [].
Proof.
  intros Hh He. unfold accounts_for; simpl.
  now rewrite Hh, He, !app_nil_r.
Qed.

Lemma accounts_for_trans (s1 s2 s3 : Backtest) (tr1 tr2 : list Obs) :
  accounts_for s1 s2 tr1 -> accounts_for s2 s3 tr2 ->
  accounts_for s1 s3 (tr1 ++ tr2).
Proof.
  intros (Hh1 & Hq1 & Hd1) (Hh2 & Hq2 & Hd2). unfold accounts_for.
  rewrite gets_of_app, puts_of_app, dispatched_of_app, events_among_app.
  split; [|split].
  - now rewrite Hh2, Hh1, app_assoc.
  - now rewrite <- app_assoc, Hq2, !app_assoc, Hq1.
  - now rewrite Hd1, Hd2.
Qed.

(** A collaborator only adds to the tail of the queue. *)
Lemma collaborator_accounts (method : St World (list Item)) (self : Backtest) :
  exists items,
    accounts_for self (fst (collaborator method self)) (map Put items) /\
    (forall e, snd (collaborator method self) = Raise e -> items = []).
Proof.
  unfold collaborator.
  destruct (method (world self)) as [w [items|e]]; cbn [fst snd].
  - exists items. destruct (trace_of_puts items) as (Hp & Hg & Hd).
    unfold accounts_for. rewrite Hp, Hg, Hd. simpl. split; [easy|]. discriminate.
  - exists []. split; [|reflexivity]. now apply accounts_for_nothing.
Qed.

Lemma process_event_accounts (event : Event) (self : Backtest) :
  exists items,
    accounts_for self (fst (_process_event event self)) (map Put items).
Proof.
  assert (counted : forall (f : Backtest -> Backtest) method,
            (forall s, history (f s) = history s) ->
            (forall s, events (f s) = events s) ->
            exists items,
              accounts_for self (fst (collaborator method (f self))) (map Put items)).
  { intros f method Hh He.
    destruct (collaborator_accounts method (f self)) as (items & Hacc & _).
    exists items. change (map Put items) with ([] ++ map Put items).
    eapply accounts_for_trans; [|exact Hacc].
    apply accounts_for_nothing; [apply Hh | apply He]. }
  unfold _process_event.
  destruct (EventType_is (event_type event) MARKET).
  { unfold bind.
    destruct (collaborator_accounts (generate_signals event) self)
      as (items1 & Hacc1 & _).
    destruct (collaborator (generate_signals event) self) as [s1 [u|e]];
      cbn [fst snd] in *.
    - destruct (collaborator_accounts (update_timeindex event) s1)
        as (items2 & Hacc2 & _).
      exists (items1 ++ items2). rewrite map_app.
      eapply accounts_for_trans; eassumption.
    - exists items1. exact Hacc1. }
  destruct (EventType_is (event_type event) SIGNAL).
  { unfold bind, gets, modify.
    apply (counted (fun s => set_signals (signals s + 1) s)); reflexivity. }
  destruct (EventType_is (event_type event) TRADE).
  { unfold bind, gets, modify.
    apply (counted (fun s => set_orders (orders s + 1) s)); reflexivity. }
  destruct (EventType_is (event_type event) FILL).
  { unfold bind, gets, modify.
    apply (counted (fun s => set_fills (fills s + 1) s)); reflexivity. }
  exists []. now apply accounts_for_nothing.
Qed.

(** *** The loops *)

(** When the inner loop returns, the queue is empty and everything that left
    it was got in order and, if an event, dispatched. *)
Lemma handle_events_returns_drained (fuel : nat) :
  forall self self',
    handle_events fuel self = (self', Returned) ->
    events self' = [] /\ exists tr, accounts_for self self' tr.
Proof.
  induction fuel as [|fuel IH]; intros self self' H; simpl in H; [discriminate|].
  unfold events_get in H.
  destruct (events self) as [|item rest] eqn:Hq.
  - simpl in H. injection H as <-. split; [exact Hq|].
    exists []. now apply accounts_for_nothing.
  - set (self1 := mkBacktest (signals self) (orders self) (fills self) rest
                    (world self) (history self ++ [Got item])) in H.
    destruct item as [event|].
    + destruct (process_event_accounts event (observe (Dispatched event) self1))
        as (items & Hacc).
      destruct (_process_event event (observe (Dispatched event) self1))
        as [self2 [u|e]]; [|discriminate].
      cbn [fst] in Hacc.
      destruct (IH _ _ H) as (Hempty & tr & Htr).
      split; [exact Hempty|].
      exists ([Got (Some event); Dispatched event] ++ map Put items ++ tr).
      eapply accounts_for_trans; [|eapply accounts_for_trans; eassumption].
      unfold accounts_for; simpl. rewrite Hq, <- app_assoc. simpl.
      now rewrite app_nil_r.
    + destruct (IH _ _ H) as (Hempty & tr & Htr).
      split; [exact Hempty|].
      exists ([Got None] ++ tr). eapply accounts_for_trans; [|eassumption].
      unfold accounts_for; simpl. now rewrite Hq, app_nil_r.
Qed.

Lemma collaborator_raised (method : St World (list Item)) (self self1 : Backtest)
    (e : exn) :
  collaborator method self = (self1, Raise e) ->
  method (world self) = (world self1, Raise e).
Proof.
  unfold collaborator.
  destruct (method (world self)) as [w [items|e']]; [discriminate|].
  intros H. injection H as <- <-. reflexivity.
Qed.

(** The same for the outer loop, except that when the data handler is
    exhausted at the first call nothing has happened at all. *)
Lemma run_loop_returns_drained (fuel : nat) :
  forall self self',
    run_loop fuel self = (self', Returned) ->
    ended_by_StopIteration self' /\
    exists tr, accounts_for self self' tr /\ (events self' = [] \/ tr = []).
Proof.
  induction fuel as [|fuel IH]; intros self self' H; simpl in H; [discriminate|].
  destruct (collaborator_accounts update_bars self) as (items & Hbars & Hnone).
  pose proof (collaborator_raised update_bars self) as Hraised.
  destruct (collaborator update_bars self) as [self1 [u|e]]; cbn [fst snd] in *.
  - destruct (handle_events fuel self1) as [self2 out] eqn:Hin.
    destruct out; try discriminate.
    destruct (handle_events_returns_drained _ _ _ Hin) as (Hempty & tr1 & Htr1).
    destruct (IH _ _ H) as (Hstop & tr2 & Htr2 & Hend).
    split; [exact Hstop|].
    exists (map Put items ++ tr1 ++ tr2). split.
    + eapply accounts_for_trans; [eassumption|].
      eapply accounts_for_trans; eassumption.
    + left. destruct Hend as [Hend | ->]; [exact Hend|].
      destruct Htr2 as (_ & Hq & _). simpl in Hq.
      now rewrite Hempty in Hq.
  - destruct (caught_by StopIteration e) eqn:Hcaught; [|discriminate].
    injection H as <-. rewrite (Hnone e eq_refl) in Hbars. split.
    + exists (world self), e. split; [now apply Hraised|].
      unfold caught_by in Hcaught. now destruct (exn_cls e).
    + exists []. split; [exact Hbars | now right].
Qed.


(** Once the data handler raises [StopIteration], [run]'s loop returns at
    once, whatever fuel is left. *)
Lemma run_loop_stops_on_StopIteration (fuel : nat) (self : Backtest)
    (w : World) (msg : string) :
  update_bars (world self) = (w, Raise (Exn StopIteration msg)) ->
  run_loop (S fuel) self = (set_world w self, Returned).
Proof.
  intros Hbars. simpl. unfold collaborator. now rewrite Hbars.
Qed.

(** A verdict reached with some fuel is the verdict with any more. *)
Lemma handle_events_more_fuel (fuel : nat) :
  forall fuel' self self' out,
    (fuel <= fuel')%nat -> out <> OutOfFuel ->
    handle_events fuel self = (self', out) ->
    handle_events fuel' self = (self', out).
Proof.
  induction fuel as [|fuel IH]; intros fuel' self self' out Hle Hout H.
  - simpl in H. injection H as _ <-. contradiction.
  - destruct fuel' as [|fuel']; [lia|]. simpl in *.
    destruct (events_get self) as [self1 [[event|]|e]]; [| |exact H].
    + destruct (_process_event event (observe (Dispatched event) self1))
        as [self2 [u|e]]; [|exact H].
      apply IH; [lia|assumption|assumption].
    + apply IH; [lia|assumption|assumption].
Qed.

Lemma run_loop_more_fuel (fuel : nat) :
  forall fuel' self self' out,
    (fuel <= fuel')%nat -> out <> OutOfFuel ->
    run_loop fuel self = (self', out) ->
    run_loop fuel' self = (self', out).
Proof.
  induction fuel as [|fuel IH]; intros fuel' self self' out Hle Hout H.
  - simpl in H. injection H as _ <-. contradiction.
  - destruct fuel' as [|fuel']; [lia|]. simpl in *.
    destruct (collaborator update_bars self) as [self1 [u|e]]; [|exact H].
    destruct (handle_events fuel self1) as [self2 inner] eqn:Hin.
    assert (Hle' : (fuel <= fuel')%nat) by lia.
    destruct inner as [|e|].
    + rewrite (handle_events_more_fuel fuel fuel' self1 self2 Returned Hle');
        [|discriminate|exact Hin].
      apply IH; assumption.
    + rewrite (handle_events_more_fuel fuel fuel' self1 self2 (Raised e) Hle');
        [exact H|discriminate|exact Hin].
    + injection H as _ <-. contradiction.
Qed.

(** C3, as the code has it.  An event whose type is none of MARKET, SIGNAL,
    TRADE and FILL is skipped: [_process_event] calls no collaborator, changes
    no counter, puts nothing on the queue and returns, and the inner loop of
    [run] goes on with the next item. *)
Theorem unknown_event_type_is_skipped (event : Event) (self : Backtest) :
  event_type event <> MARKET -> event_type event <> SIGNAL ->
  event_type event <> TRADE -> event_type event <> FILL ->
  _process_event event self = (self, Ok tt) /\
  forall fuel rest,
    events self = Some event :: rest ->
    handle_events (S fuel) self =
    handle_events fuel
      (observe (Dispatched event) (fst (events_get self))).
Proof.
  intros Hm Hs Ht Hf.
  assert (Hskip : forall s, _process_event event s = (s, Ok tt)).
  { intros s. unfold _process_event.
    destruct (event_type event); try contradiction; reflexivity. }
  split; [apply Hskip|].
  intros fuel rest Hq. simpl. unfold events_get. rewrite Hq. cbn [fst].
  now rewrite Hskip.
Qed.

End BacktestFacts.

(** *** A worked run *)

Example demo_run_one_bar : run 20 (demo_start 1) = (demo_end, Returned).
Proof. reflexivity. Qed.

(** Without fuel for the inner loop the model gives no verdict. *)
Example demo_run_short_of_fuel :
  snd (run 5 (demo_start 1)) = OutOfFuel.
Proof. reflexivity. Qed.

(** C3, as the design document has it, fails: the dispatcher returns on a
    heartbeat event, whose type is none of the four, and leaves the backtest
    as it was; and a run in which such an event is queued, got and dispatched
    between a signal and an order goes on and returns when the bars end. *)
Lemma unknown_event_type_is_not_fatal :
  _process_event (OTHER "HEARTBEAT") (demo_start 1)
  = (demo_start 1, Ok tt) /\
  snd (run 20 (demo_start 1)) = Returned /\
  dispatched_of (history (fst (run 20 (demo_start 1))))
  = [MARKET; SIGNAL; OTHER "HEARTBEAT"; TRADE; FILL].
Proof. repeat split. Qed.

Lemma unknown_event_type_is_skipped_witness :
  _process_event (OTHER "HEARTBEAT") (demo_start 1)
  = (demo_start 1, Ok tt) /\
  forall fuel rest,
    events (demo_start 1) = Some (OTHER "HEARTBEAT") :: rest ->
    handle_events (S fuel) (demo_start 1) =
    handle_events fuel
      (observe (Dispatched (OTHER "HEARTBEAT")) (fst (events_get (demo_start 1)))).
Proof.
  apply (unknown_event_type_is_skipped (OTHER "HEARTBEAT") (demo_start 1));
    discriminate.
Defined.


(** ** More of [Backtest]: counters and exceptions *)
Section BacktestCounting.

Context {Event World : Type} {collaborators : Collaborators Event World}.

Local Abbreviation Backtest := (Backtest Event World).
Local Abbreviation Obs := (Obs Event).
Local Abbreviation Item := (Item Event).

Lemma count_type_app (t : EventType) (a b : list Event) :
  count_type t (a ++ b) = count_type t a + count_type t b.
Proof.
  unfold count_type. rewrite filter_app, List.length_app. lia.
Qed.

Lemma counted_trans (s1 s2 s3 : Backtest) (tr1 tr2 : list Obs) :
  counted s1 s2 tr1 -> counted s2 s3 tr2 -> counted s1 s3 (tr1 ++ tr2).
Proof.
  intros (Hs1 & Ho1 & Hf1) (Hs2 & Ho2 & Hf2). unfold counted.
  rewrite dispatched_of_app, !count_type_app. lia.
Qed.

Lemma counted_puts (s s' : Backtest) (items : list Item) :
  signals s' = signals s -> orders s' = orders s -> fills s' = fills s ->
  counted s s' (map Put items).
Proof.
  intros Hs Ho Hf. unfold counted.
  destruct (trace_of_puts items) as (_ & _ & ->).
  unfold count_type; simpl. lia.
Qed.

Lemma collaborator_counters (method : St World (list Item)) (self : Backtest) :
  signals (fst (collaborator method self)) = signals self /\
  orders (fst (collaborator method self)) = orders self /\
  fills (fst (collaborator method self)) = fills self.
Proof.
  unfold collaborator.
  destruct (method (world self)) as [w [items|e]]; repeat split.
Qed.

(** A dispatch adds one to the counter of the event's type, if it has one,
    whether or not the handler raises, and only puts items on the queue. *)
Lemma process_event_counted (event : Event) (self : Backtest) :
  exists items,
    accounts_for self (fst (_process_event event self)) (map Put items) /\
    signals (fst (_process_event event self))
    = signals self + count_type SIGNAL [event] /\
    orders (fst (_process_event event self))
    = orders self + count_type TRADE [event] /\
    fills (fst (_process_event event self))
    = fills self + count_type FILL [event].
Proof.
  destruct (process_event_accounts event self) as (items & Hacc).
  exists items. split; [exact Hacc|].
  unfold _process_event, count_type; simpl filter.
  destruct (event_type event); simpl; unfold bind, gets, modify.
  - destruct (collaborator_counters (generate_signals event) self)
      as (Hs & Ho & Hf).
    destruct (collaborator (generate_signals event) self) as [s1 [u|e]];
      cbn [fst] in *.
    + destruct (collaborator_counters (update_timeindex event) s1)
        as (Hs' & Ho' & Hf'). lia.
    + lia.
  - destruct (collaborator_counters (update_signal event)
                (set_signals (signals self + 1) self)) as (Hs & Ho & Hf).
    rewrite Hs, Ho, Hf. simpl. lia.
  - destruct (collaborator_counters (execute_order event)
                (set_orders (orders self + 1) self)) as (Hs & Ho & Hf).
    rewrite Hs, Ho, Hf. simpl. lia.
  - destruct (collaborator_counters (update_fill event)
                (set_fills (fills self + 1) self)) as (Hs & Ho & Hf).
    rewrite Hs, Ho, Hf. simpl. lia.
  - cbn [fst]. lia.
Qed.

(** However the inner loop ends, what happened to the queue is accounted
    for and the counters have counted the dispatches. *)
Lemma handle_events_counted (fuel : nat) :
  forall self,
    exists tr,
      accounts_for self (fst (handle_events fuel self)) tr /\
      counted self (fst (handle_events fuel self)) tr.
Proof.
  induction fuel as [|fuel IH]; intros self; simpl.
  { exists []. split; [now apply accounts_for_nothing|].
    unfold counted, count_type; simpl. lia. }
  unfold events_get.
  destruct (events self) as [|item rest] eqn:Hq.
  { exists []. simpl. split; [now apply accounts_for_nothing|].
    unfold counted, count_type; simpl. lia. }
  set (self1 := mkBacktest (signals self) (orders self) (fills self) rest
                  (world self) (history self ++ [Got item])).
  destruct item as [event|].
  - assert (Hstep : accounts_for self (observe (Dispatched event) self1)
                      [Got (Some event); Dispatched event] /\
                    counted self (observe (Dispatched event) self1) []).
    { split.
      - unfold accounts_for; simpl. rewrite Hq, <- app_assoc. simpl.
        now rewrite app_nil_r.
      - unfold counted, count_type; simpl. lia. }
    destruct Hstep as (Hacc0 & _).
    destruct (process_event_counted event (observe (Dispatched event) self1))
      as (items & Hacc & Hs & Ho & Hf).
    assert (Hcnt : counted self
                     (fst (_process_event event (observe (Dispatched event) self1)))
                     ([Got (Some event); Dispatched event] ++ map Put items)).
    { unfold counted. rewrite dispatched_of_app.
      destruct (trace_of_puts items) as (_ & _ & ->).
      rewrite app_nil_r. simpl dispatched_of. rewrite Hs, Ho, Hf. simpl.
      repeat split; reflexivity. }
    destruct (_process_event event (observe (Dispatched event) self1))
      as [self2 [u|e]]; cbn [fst] in *.
    + destruct (IH self2) as (tr & Htr & Hctr).
      exists (([Got (Some event); Dispatched event] ++ map Put items) ++ tr).
      split.
      * eapply accounts_for_trans; [|exact Htr].
        eapply accounts_for_trans; eassumption.
      * eapply counted_trans; eassumption.
    + exists ([Got (Some event); Dispatched event] ++ map Put items).
      split; [eapply accounts_for_trans; eassumption | exact Hcnt].
  - destruct (IH self1) as (tr & Htr & Hctr).
    exists ([Got None] ++ tr). split.
    + eapply accounts_for_trans; [|exact Htr].
      unfold accounts_for; simpl. now rewrite Hq, app_nil_r.
    + eapply counted_trans; [|exact Hctr].
      unfold counted, count_type; simpl. lia.
Qed.

Lemma run_loop_counted (fuel : nat) :
  forall self,
    exists tr,
      accounts_for self (fst (run_loop fuel self)) tr /\
      counted self (fst (run_loop fuel self)) tr.
Proof.
  induction fuel as [|fuel IH]; intros self; simpl.
  { exists []. split; [now apply accounts_for_nothing|].
    unfold counted, count_type; simpl. lia. }
  destruct (collaborator_accounts update_bars self) as (items & Hbars & _).
  destruct (collaborator_counters update_bars self) as (Hs & Ho & Hf).
  pose proof (counted_puts self _ items Hs Ho Hf) as Hcbars.
  destruct (collaborator update_bars self) as [self1 [u|e]]; cbn [fst] in *.
  - destruct (handle_events_counted fuel self1) as (tr1 & Htr1 & Hc1).
    destruct (handle_events fuel self1) as [self2 out]; cbn [fst] in *.
    assert (Hmid : accounts_for self self2 (map Put items ++ tr1) /\
                   counted self self2 (map Put items ++ tr1)).
    { split; [eapply accounts_for_trans | eapply counted_trans]; eassumption. }
    destruct Hmid as (Hacc & Hcnt).
    destruct out as [|e|]; cbn [fst].
    + destruct (IH self2) as (tr2 & Htr2 & Hc2).
      exists ((map Put items ++ tr1) ++ tr2).
      split; [eapply accounts_for_trans | eapply counted_trans]; eassumption.
    + exists (map Put items ++ tr1). now split.
    + exists (map Put items ++ tr1). now split.
  - exists (map Put items).
    destruct (caught_by StopIteration e); cbn [fst]; now split.
Qed.

(** However [run] ends, and wherever the model runs out of fuel: the items
    got since the call began, followed by what the queue holds, are what it
    held at the start followed by the items put since; the events dispatched
    are the events got, in that order; and [signals], [orders] and [fills]
    have grown by the number of SIGNAL, TRADE and FILL events dispatched. *)
Theorem run_counts_what_it_dispatches (fuel : nat) (self : Backtest) :
  exists tr,
    history (fst (run fuel self)) = history self ++ tr /\
    gets_of tr ++ events (fst (run fuel self)) = events self ++ puts_of tr /\
    dispatched_of tr = events_among (gets_of tr) /\
    signals (fst (run fuel self))
    = signals self + count_type SIGNAL (dispatched_of tr) /\
    orders (fst (run fuel self))
    = orders self + count_type TRADE (dispatched_of tr) /\
    fills (fst (run fuel self))
    = fills self + count_type FILL (dispatched_of tr).
Proof.
  unfold run, pre_run_hook, ret.
  destruct (run_loop_counted fuel self) as (tr & (Hh & Hq & Hd) & Hs & Ho & Hf).
  exists tr. repeat split; assumption.
Qed.

(** An exception a handler raises ends the inner loop and [run] with that
    exception, whatever its class ([queue.Empty] and [StopIteration]
    included): the event has been got and counted as dispatched, and the
    rest of the queue stays where it was, behind it only what the handlers
    put before raising. *)
Theorem handler_exception_ends_run (fuel : nat) (self : Backtest)
    (event : Event) (rest : list Item) (e : exn) :
  events self = Some event :: rest ->
  snd (_process_event event
         (observe (Dispatched event) (fst (events_get self)))) = Raise e ->
  exists self' items,
    handle_events (S fuel) self = (self', Raised e) /\
    events self' = rest ++ items /\
    dispatched_of (history self') = dispatched_of (history self) ++ [event] /\
    forall self0,
      collaborator update_bars self0 = (self, Ok tt) ->
      run (S (S fuel)) self0 = (self', Raised e).
Proof.
  intros Hq Hraise.
  destruct (process_event_accounts event
              (observe (Dispatched event) (fst (events_get self))))
    as (items & Hh & Hev & _).
  assert (Hloop : handle_events (S fuel) self
                  = (fst (_process_event event
                            (observe (Dispatched event) (fst (events_get self)))),
                     Raised e)).
  { simpl. unfold events_get in *. rewrite Hq in *. cbn [fst] in *.
    destruct (_process_event event _) as [self2 r]; cbn [fst snd] in *.
    now subst r. }
  exists (fst (_process_event event
                 (observe (Dispatched event) (fst (events_get self))))), items.
  split; [exact Hloop|]. split; [|split].
  - destruct (trace_of_puts items) as (Hp & Hg & _).
    rewrite Hp, Hg in Hev. simpl in Hev. rewrite Hev.
    unfold events_get. now rewrite Hq.
  - rewrite Hh. unfold events_get. rewrite Hq. cbn [fst observe history].
    rewrite !dispatched_of_app.
    destruct (trace_of_puts items) as (_ & _ & ->). simpl.
    now rewrite !app_nil_r.
  - intros self0 Hbars. unfold run, pre_run_hook, ret.
    change (run_loop (S (S fuel)) self0) with
      (match collaborator update_bars self0 with
       | (self1, Raise e0) =>
           if caught_by StopIteration e0 then (self1, Returned)
           else (self1, Raised e0)
       | (self1, Ok _) =>
           match handle_events (S fuel) self1 with
           | (self2, Returned) => run_loop (S fuel) self2
           | stopped => stopped
           end
       end).
    now rewrite Hbars, Hloop.
Qed.


End BacktestCounting.

(** *** Worked examples *)

Lemma handler_exception_ends_run_witness :
  exists self' items,
    handle_events 3 refusing_start
    = (self', Raised (Exn StopIteration "refused")) /\
    events self' = [Some TRADE] ++ items /\
    dispatched_of (history self')
    = dispatched_of (history refusing_start) ++ [SIGNAL] /\
    forall self0,
      collaborator update_bars self0 = (refusing_start, Ok tt) ->
      run 4 self0 = (self', Raised (Exn StopIteration "refused")).
Proof.
  apply (handler_exception_ends_run 2 refusing_start SIGNAL [Some TRADE]
           (Exn StopIteration "refused")); reflexivity.
Defined.


(** ** More of [Backtest]: the loops end *)
Section BacktestTermination.

Context {Event World : Type} {collaborators : Collaborators Event World}.

Local Abbreviation Backtest := (Backtest Event World).
Local Abbreviation Obs := (Obs Event).
Local Abbreviation Item := (Item Event).

Lemma weight_pos (bound r : nat) : (1 <= weight bound r)%nat.
Proof. destruct r; simpl; lia. Qed.

Lemma weight_mono (bound r r' : nat) :
  (r <= r')%nat -> (weight bound r <= weight bound r')%nat.
Proof.
  induction 1 as [|r' Hle IH]; [lia|].
  pose proof (weight_pos bound r') as Hpos.
  destruct bound as [|b].
  - destruct r'; simpl in *; lia.
  - simpl weight. nia.
Qed.

Lemma below_weight (bound r : nat) (item : Item) :
  below r item -> (item_weight bound item <= weight bound r)%nat.
Proof.
  destruct item as [event|]; simpl below; intros H; unfold item_weight.
  - apply weight_mono. lia.
  - apply weight_mono. lia.
Qed.

Lemma queue_weight_app (bound : nat) (a b : list Item) :
  queue_weight bound (a ++ b) = (queue_weight bound a + queue_weight bound b)%nat.
Proof. unfold queue_weight. now rewrite map_app, list_sum_app. Qed.

Lemma tame_weight (bound r : nat) (method : St World (list Item))
    (w w' : World) (items : list Item) :
  tame bound r method -> method w = (w', Ok items) ->
  (queue_weight bound items <= bound * weight bound r)%nat.
Proof.
  intros Htame Hrun. destruct (Htame w w' items Hrun) as (Hlen & Hall).
  assert (H : (queue_weight bound items
               <= List.length items * weight bound r)%nat).
  { clear Hlen Hrun. induction Hall as [|item items Hitem _ IH].
    - unfold queue_weight. simpl. lia.
    - pose proof (below_weight bound r item Hitem).
      unfold queue_weight in *. simpl. lia. }
  nia.
Qed.

(** Under the causal discipline a dispatch that returns has put less than
    the event dispatched weighs. *)
Lemma process_event_lighter (bound : nat) (event : Event) (self self2 : Backtest)
    (r : result unit) :
  causal bound ->
  _process_event event self = (self2, r) ->
  exists items,
    events self2 = events self ++ items /\
    (queue_weight bound items < item_weight bound (Some event))%nat.
Proof.
  intros Hcausal. specialize (Hcausal event).
  unfold _process_event, item_weight.
  pose proof (weight_pos bound 0) as Hpos0.
  destruct (event_type event); cbn [EventType_is rank];
    unfold bind, gets, modify, collaborator; cbn [world set_signals
      set_orders set_fills].
  - destruct Hcausal as (Hgs & Hut).
    destruct (generate_signals event (world self)) as [w1 [items1|e1]] eqn:H1.
    + pose proof (tame_weight bound 3 _ _ _ _ Hgs H1) as Hw1.
      cbn [world set_world put_all].
      destruct (update_timeindex event w1) as [w2 [items2|e2]] eqn:H2;
        intros Hrun; injection Hrun as <- _.
      * pose proof (tame_weight bound 3 _ _ _ _ Hut H2) as Hw2.
        exists (items1 ++ items2). cbn [events put_all set_world].
        split; [now rewrite app_assoc|].
        rewrite queue_weight_app. simpl weight in *. lia.
      * exists items1. cbn [events put_all set_world]. split; [reflexivity|].
        simpl weight in *. lia.
    + intros Hrun; injection Hrun as <- _. exists [].
      cbn [events set_world]. rewrite app_nil_r. split; [reflexivity|].
      unfold queue_weight; simpl. lia.
  - destruct (update_signal event (world self)) as [w1 [items1|e1]] eqn:H1;
      intros Hrun; injection Hrun as <- _.
    + pose proof (tame_weight bound 2 _ _ _ _ Hcausal H1) as Hw1.
      exists items1. cbn [events put_all set_world]. split; [reflexivity|].
      simpl weight in *. lia.
    + exists []. cbn [events set_world]. rewrite app_nil_r.
      split; [reflexivity|]. unfold queue_weight; simpl. lia.
  - destruct (execute_order event (world self)) as [w1 [items1|e1]] eqn:H1;
      intros Hrun; injection Hrun as <- _.
    + pose proof (tame_weight bound 1 _ _ _ _ Hcausal H1) as Hw1.
      exists items1. cbn [events put_all set_world]. split; [reflexivity|].
      simpl weight in *. lia.
    + exists []. cbn [events set_world]. rewrite app_nil_r.
      split; [reflexivity|]. unfold queue_weight; simpl. lia.
  - destruct (update_fill event (world self)) as [w1 [items1|e1]] eqn:H1;
      intros Hrun; injection Hrun as <- _.
    + pose proof (tame_weight bound 0 _ _ _ _ Hcausal H1) as Hw1.
      exists items1. cbn [events put_all set_world]. split; [reflexivity|].
      simpl weight in *. lia.
    + exists []. cbn [events set_world]. rewrite app_nil_r.
      split; [reflexivity|]. unfold queue_weight; simpl. lia.
  - intros Hrun; injection Hrun as <- _. exists []. rewrite app_nil_r.
    split; [reflexivity|]. unfold queue_weight; simpl. lia.
Qed.

(** With more fuel than the queue weighs the inner loop reaches a verdict. *)
Lemma handle_events_enough_fuel (bound : nat) :
  causal bound ->
  forall fuel self,
    (queue_weight bound (events self) < fuel)%nat ->
    snd (handle_events fuel self) <> OutOfFuel.
Proof.
  intros Hcausal. induction fuel as [|fuel IH]; intros self Hfuel; [lia|].
  simpl. unfold events_get.
  destruct (events self) as [|item rest] eqn:Hq; [simpl; discriminate|].
  unfold queue_weight in Hfuel. simpl in Hfuel.
  fold (queue_weight bound rest) in Hfuel.
  destruct item as [event|].
  - destruct (_process_event event _) as [self2 [u|e]] eqn:Hrun;
      [|simpl; discriminate].
    destruct (process_event_lighter bound _ _ _ _ Hcausal Hrun)
      as (items & Hev & Hlt).
    apply IH. rewrite Hev. cbn [events observe]. rewrite queue_weight_app.
    unfold item_weight in *. lia.
  - apply IH. cbn [events]. pose proof (weight_pos bound 0).
    unfold item_weight in Hfuel. lia.
Qed.

Lemma item_weight_le (bound : nat) (item : Item) :
  (item_weight bound item <= weight bound 4)%nat.
Proof.
  destruct item as [event|]; unfold item_weight; apply weight_mono; [|lia].
  destruct (event_type event); simpl; lia.
Qed.

Lemma queue_weight_le (bound : nat) (items : list Item) :
  (queue_weight bound items <= List.length items * weight bound 4)%nat.
Proof.
  pose proof (item_weight_le bound) as Hle.
  remember (weight bound 4) as top eqn:Htop. clear Htop.
  induction items as [|item items IH]; unfold queue_weight in *; simpl; [lia|].
  specialize (Hle item). lia.
Qed.

Lemma collaborator_bars (bars_left : World -> nat)
    (method : St World (list Item)) (self : Backtest) :
  (bars_left (fst (method (world self))) <= bars_left (world self))%nat ->
  (bars_left (world (fst (collaborator method self)))
   <= bars_left (world self))%nat.
Proof.
  unfold collaborator.
  destruct (method (world self)) as [w [items|e]]; simpl; lia.
Qed.

Lemma process_event_bars (bound : nat) (bars_left : World -> nat)
    (event : Event) (self : Backtest) :
  exhaustible bound bars_left ->
  (bars_left (world (fst (_process_event event self)))
   <= bars_left (world self))%nat.
Proof.
  intros (_ & Hhandlers). unfold _process_event.
  destruct (event_type event); cbn [EventType_is]; unfold bind, gets, modify.
  - pose proof (collaborator_bars bars_left (generate_signals event) self
                  (proj1 (Hhandlers event (world self)))) as H1.
    destruct (collaborator (generate_signals event) self) as [s1 [u|e]];
      cbn [fst] in *; [|exact H1].
    pose proof (collaborator_bars bars_left (update_timeindex event) s1
                  (proj1 (proj2 (Hhandlers event (world s1))))) as H2.
    lia.
  - apply (collaborator_bars bars_left (update_signal event)
             (set_signals (signals self + 1) self)).
    apply (Hhandlers event (world self)).
  - apply (collaborator_bars bars_left (execute_order event)
             (set_orders (orders self + 1) self)).
    apply (Hhandlers event (world self)).
  - apply (collaborator_bars bars_left (update_fill event)
             (set_fills (fills self + 1) self)).
    apply (Hhandlers event (world self)).
  - simpl. lia.
Qed.

Lemma handle_events_bars (bound : nat) (bars_left : World -> nat) :
  exhaustible bound bars_left ->
  forall fuel self,
    (bars_left (world (fst (handle_events fuel self)))
     <= bars_left (world self))%nat.
Proof.
  intros Hex. induction fuel as [|fuel IH]; intros self; simpl; [lia|].
  unfold events_get. destruct (events self) as [|[event|] rest]; simpl; [lia| |].
  - pose proof (process_event_bars bound bars_left event
                  (observe (Dispatched event)
                     (mkBacktest (signals self) (orders self) (fills self) rest
                        (world self) (history self ++ [Got (Some event)])))
                  Hex) as Hstep.
    destruct (_process_event event _) as [self2 [u|e]]; cbn [fst] in *.
    + specialize (IH self2). simpl in Hstep. lia.
    + simpl in Hstep. exact Hstep.
  - apply (IH (mkBacktest (signals self) (orders self) (fills self) rest
                 (world self) (history self ++ [Got None]))).
Qed.

(** With more fuel than the bars left, the queue and a bar's worth of
    events weigh together, the outer loop reaches a verdict. *)
Lemma run_loop_enough_fuel (bound : nat) (bars_left : World -> nat) :
  causal bound -> exhaustible bound bars_left ->
  forall fuel self,
    (bars_left (world self) + queue_weight bound (events self)
     + bound * weight bound 4 + 1 < fuel)%nat ->
    snd (run_loop fuel self) <> OutOfFuel.
Proof.
  intros Hcausal Hex. induction fuel as [|fuel IH]; intros self Hfuel; [lia|].
  simpl. unfold collaborator at 1.
  destruct (update_bars (world self)) as [w [items|e]] eqn:Hbars.
  - destruct (proj1 Hex _ _ _ Hbars) as (Hless & Hlen).
    set (self1 := put_all items (set_world w self)).
    assert (Hq1 : (queue_weight bound (events self1) < fuel)%nat).
    { unfold self1. cbn [events put_all set_world]. rewrite queue_weight_app.
      pose proof (queue_weight_le bound items) as Hq. unfold backtest.Item in Hq.
      pose proof (Nat.mul_le_mono_r _ _ (weight bound 4) Hlen). lia. }
    pose proof (handle_events_enough_fuel bound Hcausal fuel self1 Hq1) as Hin.
    pose proof (handle_events_bars bound bars_left Hex fuel self1) as Hb.
    destruct (handle_events fuel self1) as [self2 out] eqn:Hrun.
    cbn [fst snd] in *.
    destruct out as [|e|]; [|simpl; discriminate|contradiction].
    destruct (handle_events_returns_drained _ _ _ Hrun) as (Hempty & _).
    apply IH. rewrite Hempty. change (queue_weight bound []) with 0%nat.
    unfold self1 in Hb. cbn [world put_all set_world] in Hb. lia.
  - destruct (caught_by StopIteration e); simpl; discriminate.
Qed.

(** Under the causal discipline the inner loop ends: with one unit of fuel
    more than the queue weighs it returns, on an empty queue, or raises. *)
Theorem handle_events_ends (bound : nat) (self : Backtest) :
  causal bound ->
  exists self',
    (handle_events (S (queue_weight bound (events self))) self
     = (self', Returned) /\ events self' = []) \/
    (exists e,
       handle_events (S (queue_weight bound (events self))) self
       = (self', Raised e)).
Proof.
  intros Hcausal.
  pose proof (handle_events_enough_fuel bound Hcausal
                (S (queue_weight bound (events self))) self
                (Nat.lt_succ_diag_r _)) as Hin.
  destruct (handle_events (S (queue_weight bound (events self))) self)
    as [self' out] eqn:Hrun.
  exists self'. destruct out as [|e|]; cbn [snd] in Hin.
  - left. split; [reflexivity|].
    now destruct (handle_events_returns_drained _ _ _ Hrun).
  - right. now exists e.
  - contradiction.
Qed.

(** With a data handler that runs out of bars and handlers that keep the
    causal discipline, [run] ends: with fuel for the bars left, the queue
    and one bar's worth of events it returns, and then [update_bars] has
    raised [StopIteration], or it raises. *)
Theorem run_ends (bound : nat) (bars_left : World -> nat) (self : Backtest) :
  causal bound -> exhaustible bound bars_left ->
  exists self',
    (run (bars_left (world self) + queue_weight bound (events self)
          + bound * weight bound 4 + 2) self = (self', Returned) /\
     ended_by_StopIteration self') \/
    (exists e,
       run (bars_left (world self) + queue_weight bound (events self)
            + bound * weight bound 4 + 2) self = (self', Raised e)).
Proof.
  intros Hcausal Hex. unfold run, pre_run_hook, ret.
  set (fuel := (bars_left (world self) + queue_weight bound (events self)
                + bound * weight bound 4 + 2)%nat).
  assert (Hfuel : (bars_left (world self) + queue_weight bound (events self)
                   + bound * weight bound 4 + 1 < fuel)%nat) by (unfold fuel; lia).
  pose proof (run_loop_enough_fuel bound bars_left Hcausal Hex fuel self Hfuel)
    as Hin.
  destruct (run_loop fuel self) as [self' out] eqn:Hrun.
  exists self'. destruct out as [|e|]; cbn [snd] in Hin.
  - left. split; [reflexivity|].
    now destruct (run_loop_returns_drained _ _ _ Hrun).
  - right. now exists e.
  - contradiction.
Qed.


End BacktestTermination.

(** *** Worked examples

    The collaborators of the worked run keep the causal discipline with at
    most two items per handler, and their data handler runs out of bars. *)

Lemma demo_causal : causal (collaborators := demo) 2.
Proof.
  intros event. destruct event; simpl; unfold tame, demo_puts;
    try exact I; try match goal with |- _ /\ _ => split end;
    intros bars bars' items [= _ <-]; simpl;
    (split; [lia | repeat constructor; simpl; lia]).
Qed.

Lemma demo_exhaustible : exhaustible (collaborators := demo) 2 (fun w => w).
Proof.
  split.
  - intros [|bars] bars' items; simpl; [discriminate|].
    intros [= <- <-]. simpl. lia.
  - intros event bars. simpl. lia.
Qed.

Lemma handle_events_ends_witness :
  exists self',
    (handle_events
       (S (queue_weight (collaborators := demo) 2
             (events (put_all [Some MARKET] (demo_start 0)))))
       (put_all [Some MARKET] (demo_start 0))
     = (self', Returned) /\ events self' = []) \/
    (exists e,
       handle_events
         (S (queue_weight (collaborators := demo) 2
               (events (put_all [Some MARKET] (demo_start 0)))))
         (put_all [Some MARKET] (demo_start 0))
       = (self', Raised e)).
Proof.
  apply (handle_events_ends 2 (put_all [Some MARKET] (demo_start 0))
           demo_causal).
Defined.

Lemma run_ends_witness :
  exists self',
    (run (world (demo_start 1)
          + queue_weight (collaborators := demo) 2 (events (demo_start 1))
          + 2 * weight 2 4 + 2) (demo_start 1) = (self', Returned) /\
     ended_by_StopIteration self') \/
    (exists e,
       run (world (demo_start 1)
            + queue_weight (collaborators := demo) 2 (events (demo_start 1))
            + 2 * weight 2 4 + 2) (demo_start 1) = (self', Raised e)).
Proof.
  apply (run_ends 2 (fun w => w) (demo_start 1) demo_causal demo_exhaustible).
Defined.

